(** * firecrawl-simple: the two scraper backends and their PDF classifier

    A shallow embedding of [scrapeWithPlaywright], [scrapeWithFetch] and
    [isPDFContent] (the scraper modules of apps/api), with the properties
    of the fetch contract stated over it.

    JavaScript values are an inductive type, strings are lists of UTF-16
    code units, exceptions are a completion type, and the scrapers run in a
    small state-and-exception monad whose state holds the function's local
    [logParams] object and the list of HTTP calls handed to axios.

    The logger of lib/logger.ts ([zeroDataRetentionFilter], [logFormat],
    [Logger.log] with its five shorthands, [Logger.child]) and the batch
    script ([processResults], [getStartUrls], [main]) follow, each told by
    what it returns and by the calls it makes on the winston logger. *)

From Stdlib Require Import String Ascii ZArith List Bool Lia Floats Uint63 DecimalString.
Import ListNotations.
Local Open Scope Z_scope.

(** ** Strings *)

(** A JavaScript string: its UTF-16 code units. *)
Definition jsstring := list Z.

(** The code units of an ASCII literal of the source. *)
Definition lit (s : string) : jsstring :=
  map (fun a => Z.of_N (N_of_ascii a)) (list_ascii_of_string s).

Fixpoint str_eqb (a b : jsstring) : bool :=
  match a, b with
  | [], [] => true
  | x :: a', y :: b' => (x =? y) && str_eqb a' b'
  | _, _ => false
  end.

(** [String.prototype.startsWith] (position 0). *)
Fixpoint startsWith (s p : jsstring) {struct p} : bool :=
  match p, s with
  | [], _ => true
  | c :: p', d :: s' => (c =? d) && startsWith s' p'
  | _ :: _, [] => false
  end.

(** [String.prototype.includes]: [p] occurs somewhere in [s]. *)
Fixpoint includes (s p : jsstring) : bool :=
  match s with
  | [] => startsWith [] p
  | _ :: s' => startsWith s p || includes s' p
  end.

(** ECMAScript WhiteSpace and LineTerminator code points, the ones
    [String.prototype.trim] strips. *)
Definition isWhiteSpace (c : Z) : bool :=
  ((9 <=? c) && (c <=? 13)) || (c =? 32) || (c =? 160) || (c =? 5760)
  || ((8192 <=? c) && (c <=? 8202)) || (c =? 8232) || (c =? 8233)
  || (c =? 8239) || (c =? 8287) || (c =? 12288) || (c =? 65279).

Fixpoint trimStart (s : jsstring) : jsstring :=
  match s with
  | [] => []
  | c :: s' => if isWhiteSpace c then trimStart s' else s
  end.

Definition trimEnd (s : jsstring) : jsstring := rev (trimStart (rev s)).

Definition trim (s : jsstring) : jsstring := trimEnd (trimStart s).

(** The character class [[\x00-\x08\x0B\x0C\x0E-\x1F\x7F-\x9F]]. *)
Definition isNonPrintable (c : Z) : bool :=
  ((0 <=? c) && (c <=? 8)) || (c =? 11) || (c =? 12)
  || ((14 <=? c) && (c <=? 31)) || ((127 <=? c) && (c <=? 159)).

(** ** Values and completions *)

(** The values this code handles: [undefined], and what [JSON.parse] can
    produce. A number is an integer (status codes, wait times); fractions,
    [NaN] and the infinities do not occur in the model. An object is its
    list of own properties, first binding first. *)
#[local] Set Warnings "-register-all".
Inductive JSValue : Type :=
| JUndefined
| JNull
| JBool (b : bool)
| JNum (n : Z)
| JStr (s : jsstring)
| JArr (elems : list JSValue)
| JObj (props : list (jsstring * JSValue)).

(** The outcome of evaluating something that may throw. *)
Inductive Completion (A : Type) : Type :=
| Normal (a : A)
| Throw (e : JSValue).
Arguments Normal {A} a.
Arguments Throw {A} e.

Definition cbind {A B} (c : Completion A) (k : A -> Completion B) : Completion B :=
  match c with
  | Normal a => k a
  | Throw e => Throw e
  end.

Declare Scope completion_scope.
Delimit Scope completion_scope with completion.
Notation "x <- c ;; k" := (cbind c (fun x => k))
  (at level 61, c at next level, right associativity) : completion_scope.

(** A [TypeError] instance, as an object carrying its name and message. *)
Definition TypeError (message : jsstring) : JSValue :=
  JObj [(lit "name", JStr (lit "TypeError")); (lit "message", JStr message)].

(** ToBoolean. *)
Definition toBoolean (v : JSValue) : bool :=
  match v with
  | JUndefined | JNull => false
  | JBool b => b
  | JNum n => negb (n =? 0)
  | JStr s => match s with [] => false | _ :: _ => true end
  | JArr _ | JObj _ => true
  end.

Definition typeof (v : JSValue) : jsstring :=
  match v with
  | JUndefined => lit "undefined"
  | JBool _ => lit "boolean"
  | JNum _ => lit "number"
  | JStr _ => lit "string"
  | JNull | JArr _ | JObj _ => lit "object"
  end.

(** [a || b] and [a ?? b] on values. *)
Definition jsOr (a b : JSValue) : JSValue := if toBoolean a then a else b.

Definition isNullish (v : JSValue) : bool :=
  match v with
  | JUndefined | JNull => true
  | _ => false
  end.

Definition nullish (a b : JSValue) : JSValue := if isNullish a then b else a.

Fixpoint lookup (name : jsstring) (props : list (jsstring * JSValue)) : JSValue :=
  match props with
  | [] => JUndefined
  | (k, v) :: rest => if str_eqb k name then v else lookup name rest
  end.

Definition describe (v : JSValue) : jsstring :=
  match v with
  | JNull => lit "null"
  | _ => lit "undefined"
  end.

(** [v.name] for the property names this code reads ([content],
    [pageStatusCode], [pageError], [params], [wait], [code], [message]):
    reading from [undefined] or [null] throws, an object yields its own
    property, and primitives and arrays, whose prototypes define none of
    these names, yield [undefined]. *)
Definition getProp (v : JSValue) (name : jsstring) : Completion JSValue :=
  match v with
  | JUndefined | JNull =>
      Throw (TypeError (lit "Cannot read properties of " ++ describe v
                        ++ lit " (reading '" ++ name ++ lit "')"))
  | JObj props => Normal (lookup name props)
  | _ => Normal JUndefined
  end.

(** [v?.name]. *)
Definition getPropOpt (v : JSValue) (name : jsstring) : Completion JSValue :=
  if isNullish v then Normal JUndefined else getProp v name.

(** [v === "..."] against a string literal. *)
Definition strictEqualsStr (v : JSValue) (s : jsstring) : bool :=
  match v with
  | JStr t => str_eqb t s
  | _ => false
  end.

(** Method calls on a value that the source treats as a string: they throw
    when the receiver has no such method. *)
Definition notAFunction (method : string) : JSValue :=
  TypeError (lit "content." ++ lit method ++ lit " is not a function").

Definition callMethod {A} (method : string) (f : jsstring -> A) (v : JSValue) : Completion A :=
  match v with
  | JStr s => Normal (f s)
  | JUndefined | JNull => cbind (getProp v (lit method)) (fun _ => Throw (notAFunction method))
  | _ => Throw (notAFunction method)
  end.

(** [content.length]. Reading it from [undefined] or [null] throws; a string
    has its number of code units and an array its number of elements; any
    other receiver gives [undefined] ([None]), which no comparison exceeds.
    An own [length] property of an object is not modelled: the guard of
    [isPDFContent] lets strings only reach this read. *)
Definition lengthOf (v : JSValue) : Completion (option nat) :=
  match v with
  | JUndefined | JNull => cbind (getProp v (lit "length")) (fun _ => Normal None)
  | JStr s => Normal (Some (List.length s))
  | JArr elems => Normal (Some (List.length elems))
  | _ => Normal None
  end.

(** [content.match(/[...]/g)]: [null] when nothing matches, else the array
    of the matched one-unit substrings. *)
Definition matchNonPrintable (s : jsstring) : option (list jsstring) :=
  match filter isNonPrintable s with
  | [] => None
  | ms => Some (map (fun c => [c]) ms)
  end.

Definition orEmpty (m : option (list jsstring)) : list jsstring :=
  match m with
  | Some ms => ms
  | None => []
  end.

(** A count as a JavaScript number (binary64); the conversion is exact
    below 2^53, beyond the length of any string. *)
Definition numberOfNat (n : nat) : float :=
  PrimFloat.of_uint63 (Uint63.of_Z (Z.of_nat n)).

(** [nonPrintableChars / totalChars > 0.1], in binary64 arithmetic;
    [0x1.999999999999ap-4] is the double the literal [0.1] denotes. *)
Definition ratioAboveTenth (nonPrintableChars totalChars : nat) : bool :=
  PrimFloat.ltb 0x1.999999999999ap-4%float
    (PrimFloat.div (numberOfNat nonPrintableChars) (numberOfNat totalChars)).

(** ** The classifier *)

Definition hasAllMarkers (trimmedContent : jsstring) : bool :=
  includes trimmedContent (lit "obj") && includes trimmedContent (lit "endobj")
  && includes trimmedContent (lit "stream") && includes trimmedContent (lit "endstream").

(** [isPDFContent], identical in both scraper modules. *)
Definition isPDFContent (content : JSValue) : Completion bool :=
  (if negb (toBoolean content) || negb (str_eqb (typeof content) (lit "string"))
   then Normal false
   else
     trimmedContent <- callMethod "trim" trim content ;;
     if startsWith trimmedContent (lit "%PDF-") then Normal true
     else if hasAllMarkers trimmedContent then Normal true
     else
       matches <- callMethod "match" matchNonPrintable content ;;
       let nonPrintableChars := List.length (orEmpty matches) in
       totalChars <- lengthOf content ;;
       match totalChars with
       | Some totalChars =>
           if (100 <? totalChars)%nat && ratioAboveTenth nonPrintableChars totalChars
           then Normal true
           else Normal false
       | None => Normal false
       end)%completion.

(** ** The fetch result and the log record *)

(** What both scrapers resolve to. A field holds [null] or [undefined]
    when it is absent. *)
Record FetchResult : Type := {
  content : JSValue;
  pageStatusCode : JSValue;
  pageError : JSValue
}.

(** The function-local [logParams] object. [startTime] and
    [time_taken_seconds] hold wall-clock readings and are left out; the
    [finally] block of either scraper writes nothing else. *)
Record LogParams : Type := {
  url : jsstring;
  scraper : jsstring;
  success : bool;
  response_code : JSValue;
  error_message : JSValue;
  html : JSValue
}.

Definition set_success (b : bool) (l : LogParams) : LogParams :=
  {| url := url l; scraper := scraper l; success := b;
     response_code := response_code l; error_message := error_message l;
     html := html l |}.

Definition set_response_code (v : JSValue) (l : LogParams) : LogParams :=
  {| url := url l; scraper := scraper l; success := success l;
     response_code := v; error_message := error_message l; html := html l |}.

Definition set_error_message (v : JSValue) (l : LogParams) : LogParams :=
  {| url := url l; scraper := scraper l; success := success l;
     response_code := response_code l; error_message := v; html := html l |}.

Definition set_html (v : JSValue) (l : LogParams) : LogParams :=
  {| url := url l; scraper := scraper l; success := success l;
     response_code := response_code l; error_message := error_message l;
     html := v |}.

(** ** The HTTP client *)

(** A call handed to axios: what varies from call to call (the fixed
    [Content-Type] header and the identity [transformResponse] are the same
    in both). The POST's [timeout] is [universalTimeout + waitParam]; it is
    kept as its two operands. *)
Inductive HttpCall : Type :=
| Get (url : jsstring) (timeout : Z)
| Post (endpoint : JSValue) (url : jsstring) (wait_after_load : JSValue)
       (headers : JSValue) (timeout : Z * JSValue).

(** What the network does with a call: a response arrives (status line and
    body text), or the transport fails with the error axios rejects with
    (a timeout is the error whose [code] is ["ECONNABORTED"]). *)
Inductive Exchange : Type :=
| Responded (status : Z) (statusText : jsstring) (data : jsstring)
| Failed (error : JSValue).

(** The response object axios resolves with. [transformResponse] is the
    identity in both calls, so [data] is the body text, unparsed. *)
Record AxiosResponse : Type := {
  status : Z;
  statusText : jsstring;
  data : jsstring
}.

(** axios is a dependency, not code of this repository; what follows is its
    settle step under the defaults the two calls leave in place. Neither
    call sets [validateStatus], so the default applies: only a 2xx status
    resolves, any other rejects with an [AxiosError]. *)
Definition validateStatus (status : Z) : bool :=
  (200 <=? status) && (status <? 300).

Definition decimal (n : Z) : jsstring :=
  lit (DecimalString.NilZero.string_of_int (Z.to_int n)).

Definition AxiosError (message : jsstring) (code : JSValue) : JSValue :=
  JObj [(lit "name", JStr (lit "AxiosError")); (lit "message", JStr message);
        (lit "code", code)].

Definition statusErrorCode (status : Z) : JSValue :=
  match status / 100 - 4 with
  | 0 => JStr (lit "ERR_BAD_REQUEST")
  | 1 => JStr (lit "ERR_BAD_RESPONSE")
  | _ => JUndefined
  end.

Definition settle (x : Exchange) : Completion AxiosResponse :=
  match x with
  | Responded st txt body =>
      if (st =? 0) || validateStatus st
      then Normal {| status := st; statusText := txt; data := body |}
      else Throw (AxiosError (lit "Request failed with status code " ++ decimal st)
                             (statusErrorCode st))
  | Failed error => Throw error
  end.

(** ** The environment of a call *)

(** What the scrapers import or reach outside the module: the
    [universalTimeout] constant, the microservice endpoint of the process
    environment, the request-parameter provider, the network behind axios,
    and the built-in [JSON.parse]. *)
Record Env : Type := {
  universalTimeout : Z;
  PLAYWRIGHT_MICROSERVICE_URL : JSValue;
  generateRequestParams : jsstring -> Completion JSValue;
  network : HttpCall -> Exchange;
  JSON_parse : jsstring -> Completion JSValue
}.

(** ** The scraper monad: local state and exceptions *)

Record RunState : Type := {
  logParams : LogParams;
  calls : list HttpCall
}.

Definition Scraper (A : Type) : Type := RunState -> Completion A * RunState.

Definition ret {A} (a : A) : Scraper A := fun st => (Normal a, st).

Definition bind {A B} (m : Scraper A) (k : A -> Scraper B) : Scraper B :=
  fun st =>
    match m st with
    | (Normal a, st') => k a st'
    | (Throw e, st') => (Throw e, st')
    end.

Definition liftC {A} (c : Completion A) : Scraper A := fun st => (c, st).

(** [try { body } catch (error) { handler }]: the state written before the
    throw is the one the handler sees. *)
Definition tryCatch {A} (body : Scraper A) (handler : JSValue -> Scraper A) : Scraper A :=
  fun st =>
    match body st with
    | (Normal a, st') => (Normal a, st')
    | (Throw e, st') => handler e st'
    end.

Definition modifyLog (f : LogParams -> LogParams) : Scraper unit :=
  fun st => (Normal tt, {| logParams := f (logParams st); calls := calls st |}).

Definition getLog : Scraper LogParams := fun st => (Normal (logParams st), st).

(** [await axios.get(...)] / [await axios.post(...)]: the call is recorded
    and the exchange settled. *)
Definition axios (env : Env) (call : HttpCall) : Scraper AxiosResponse :=
  fun st => (settle (network env call),
             {| logParams := logParams st; calls := calls st ++ [call] |}).

Declare Scope scraper_scope.
Delimit Scope scraper_scope with scraper.
Notation "x <- c ;; k" := (bind c (fun x => k))
  (at level 61, c at next level, right associativity) : scraper_scope.
Notation "c ;; k" := (bind c (fun _ => k))
  (at level 61, right associativity) : scraper_scope.

Definition start {A} (log : LogParams) (m : Scraper A) : Completion A * RunState :=
  m {| logParams := log; calls := [] |}.

Definition pdfDetected : jsstring :=
  lit "PDF content detected - not suitable for text extraction".

(** The [catch (error)] block, the same in both scrapers. *)
Definition catchTransport (error : JSValue) : Scraper FetchResult :=
  (code <- liftC (getProp error (lit "code")) ;;
   (if strictEqualsStr code (lit "ECONNABORTED")
    then modifyLog (set_error_message (JStr (lit "Request timed out")))
    else message <- liftC (getProp error (lit "message")) ;;
         modifyLog (set_error_message (jsOr message error))) ;;
   log <- getLog ;;
   ret {| content := JStr [];
          pageStatusCode := JNull;
          pageError := error_message log |})%scraper.

(** ** scrapeWithFetch *)

(** [Logger.debug] calls only write to the logging sink and are left out,
    here and below. *)
Definition scrapeWithFetch (env : Env) (url : jsstring)
  : Completion FetchResult * RunState :=
  start {| url := url; scraper := lit "fetch"; success := false;
           response_code := JNull; error_message := JNull; html := JStr [] |}
    (tryCatch
       (response <- axios env (Get url (universalTimeout env)) ;;
        if negb (status response =? 200) then
          modifyLog (set_error_message (JStr (statusText response))) ;;
          modifyLog (set_response_code (JNum (status response))) ;;
          ret {| content := JStr [];
                 pageStatusCode := JNum (status response);
                 pageError := JStr (statusText response) |}
        else
          let text := JStr (data response) in
          isPdf <- liftC (isPDFContent text) ;;
          if isPdf then
            modifyLog (set_error_message (JStr pdfDetected)) ;;
            modifyLog (set_response_code (JNum (status response))) ;;
            ret {| content := JStr [];
                   pageStatusCode := JNum (status response);
                   pageError := JStr pdfDetected |}
          else
            modifyLog (set_success true) ;;
            modifyLog (set_html text) ;;
            modifyLog (set_response_code (JNum (status response))) ;;
            ret {| content := text;
                   pageStatusCode := JNum (status response);
                   pageError := JNull |})
       catchTransport)%scraper.

(** ** scrapeWithPlaywright *)

(** The value of the parameter [waitFor: number = 0]. *)
Definition orZero (waitFor : option Z) : Z :=
  match waitFor with
  | Some w => w
  | None => 0
  end.

(** [waitFor] is [None] when the caller omits it ([waitFor: number = 0]);
    [headers] is [undefined] when omitted. *)
Definition scrapeWithPlaywright (env : Env) (url : jsstring)
    (waitFor : option Z) (headers : JSValue)
  : Completion FetchResult * RunState :=
  let waitFor := orZero waitFor in
  start {| url := url; scraper := lit "playwright"; success := false;
           response_code := JNull; error_message := JNull; html := JStr [] |}
    (tryCatch
       (reqParams <- liftC (generateRequestParams env url) ;;
        params <- liftC (getProp reqParams (lit "params")) ;;
        wait <- liftC (getPropOpt params (lit "wait")) ;;
        let waitParam := nullish wait (JNum waitFor) in
        response <- axios env (Post (PLAYWRIGHT_MICROSERVICE_URL env) url waitParam
                                    headers (universalTimeout env, waitParam)) ;;
        if negb (status response =? 200) then
          e <- liftC (getPropOpt (JStr (data response)) (lit "pageError")) ;;
          modifyLog (set_error_message e) ;;
          c <- liftC (getPropOpt (JStr (data response)) (lit "pageStatusCode")) ;;
          modifyLog (set_response_code c) ;;
          c' <- liftC (getPropOpt (JStr (data response)) (lit "pageStatusCode")) ;;
          e' <- liftC (getPropOpt (JStr (data response)) (lit "pageError")) ;;
          ret {| content := JStr []; pageStatusCode := c'; pageError := e' |}
        else
          let textData := data response in
          tryCatch
            (data <- liftC (JSON_parse env textData) ;;
             html <- liftC (getProp data (lit "content")) ;;
             isPdf <- liftC (isPDFContent html) ;;
             if isPdf then
               modifyLog (set_error_message (JStr pdfDetected)) ;;
               c <- liftC (getProp data (lit "pageStatusCode")) ;;
               modifyLog (set_response_code c) ;;
               c' <- liftC (getProp data (lit "pageStatusCode")) ;;
               ret {| content := JStr [];
                      pageStatusCode := c';
                      pageError := JStr pdfDetected |}
             else
               modifyLog (set_success true) ;;
               modifyLog (set_html html) ;;
               c <- liftC (getProp data (lit "pageStatusCode")) ;;
               modifyLog (set_response_code c) ;;
               e <- liftC (getProp data (lit "pageError")) ;;
               modifyLog (set_error_message e) ;;
               c' <- liftC (getProp data (lit "pageStatusCode")) ;;
               e' <- liftC (getProp data (lit "pageError")) ;;
               ret {| content := nullish html (JStr []);
                      pageStatusCode := c';
                      pageError := e' |})
            (fun jsonError =>
               message <- liftC (getProp jsonError (lit "message")) ;;
               modifyLog (set_error_message (jsOr message jsonError)) ;;
               log <- getLog ;;
               ret {| content := JStr [];
                      pageStatusCode := JNull;
                      pageError := error_message log |}))
       catchTransport)%scraper.


(** ** Vocabulary of the statements *)

(** The four structural markers of rule 2. *)
Definition markers : list jsstring :=
  [lit "obj"; lit "endobj"; lit "stream"; lit "endstream"].

(** Rule 3 of [isPDFContent], as a predicate on a string. *)
Definition nonPrintableRule (s : jsstring) : bool :=
  (100 <? List.length s)%nat
  && ratioAboveTenth (List.length (orEmpty (matchNonPrintable s))) (List.length s).

(** A field of a result is present when it is neither [null] nor
    [undefined]. *)
Definition isPresent (v : JSValue) : bool := negb (isNullish v).

(** A status other than 200 comes with an error. *)
Definition statusPaired (r : FetchResult) : Prop :=
  isPresent (pageStatusCode r) = true ->
  pageStatusCode r <> JNum 200 ->
  isPresent (pageError r) = true.

(** Lines 64-65 of [scrapeWithPlaywright] on their own: the wait value the
    POST is issued with. *)
Definition resolveWait (env : Env) (url : jsstring) (waitFor : option Z)
  : Completion JSValue :=
  (reqParams <- generateRequestParams env url ;;
   params <- getProp reqParams (lit "params") ;;
   wait <- getPropOpt params (lit "wait") ;;
   Normal (nullish wait (JNum (orZero waitFor))))%completion.

(** The POST of [scrapeWithPlaywright] for a given wait value. *)
Definition postCall (env : Env) (url : jsstring) (waitParam headers : JSValue)
  : HttpCall :=
  Post (PLAYWRIGHT_MICROSERVICE_URL env) url waitParam headers
       (universalTimeout env, waitParam).

(** ** Sample inputs *)

(** JSON text written with single quotes standing for double quotes. *)
Definition json (s : string) : jsstring :=
  map (fun c => if c =? 39 then 34 else c) (lit s).

(** An environment whose provider and network each give one fixed answer,
    with what [JSON.parse] does on the texts that occur. *)
Definition fixedEnv (provided : Completion JSValue) (answer : Exchange)
    (parse : jsstring -> Completion JSValue) : Env :=
  {| universalTimeout := 15000;
     PLAYWRIGHT_MICROSERVICE_URL := JStr (lit "http://localhost:3000/scrape");
     generateRequestParams := fun _ => provided;
     network := fun _ => answer;
     JSON_parse := parse |}.

Definition exampleUrl : jsstring := lit "https://example.com/page".

(** A provider answer without a wait override. *)
Definition plainParams : Completion JSValue :=
  Normal (JObj [(lit "url", JStr exampleUrl);
                (lit "params", JObj [(lit "timeout", JNum 15000)])]).

Definition ErrorObject (message : jsstring) : JSValue :=
  JObj [(lit "name", JStr (lit "Error")); (lit "message", JStr message)].

Definition SyntaxErrorObject (message : jsstring) : JSValue :=
  JObj [(lit "name", JStr (lit "SyntaxError")); (lit "message", JStr message)].

(** No text at hand is JSON: an HTML body makes [JSON.parse] throw. *)
Definition notJson : jsstring -> Completion JSValue :=
  fun _ => Throw (SyntaxErrorObject (lit "Unexpected token < in JSON at position 0")).

(** [JSON.parse] on the one JSON text at hand, with the value it denotes. *)
Definition parses (text : jsstring) (value : JSValue) : jsstring -> Completion JSValue :=
  fun t => if str_eqb t text then Normal value else notJson t.

Definition timeoutError : JSValue :=
  AxiosError (lit "timeout of 15000ms exceeded") (JStr (lit "ECONNABORTED")).

Definition refusedError : JSValue :=
  AxiosError (lit "connect ECONNREFUSED 127.0.0.1:3000") (JStr (lit "ECONNREFUSED")).

(** A content with all four markers and a hundred control characters, and
    the same content with the marker [endstream] removed. *)
Definition noisyWithMarkers : jsstring :=
  lit "obj endobj stream endstream" ++ repeat 1 100.

Definition noisyWithoutEndstream : jsstring :=
  lit "obj endobj stream " ++ repeat 1 100.

(** The same two, under a PDF header instead of the control characters. *)
Definition headedWithMarkers : jsstring := lit "%PDF-1.4 obj endobj stream endstream".

Definition headedWithoutEndstream : jsstring := lit "%PDF-1.4 obj endobj stream ".

(** An envelope reporting status 404 with no error. *)
Definition softEnvelopeText : jsstring :=
  json "{'content':'<html>gone</html>','pageStatusCode':404,'pageError':null}".

Definition softEnvelope : JSValue :=
  JObj [(lit "content", JStr (lit "<html>gone</html>"));
        (lit "pageStatusCode", JNum 404);
        (lit "pageError", JNull)].

(** An envelope reporting a failure of the microservice. *)
Definition failedEnvelopeText : jsstring :=
  json "{'content':'','pageStatusCode':500,'pageError':'Internal Server Error'}".

Definition failedEnvelope : JSValue :=
  JObj [(lit "content", JStr []);
        (lit "pageStatusCode", JNum 500);
        (lit "pageError", JStr (lit "Internal Server Error"))].

(** An envelope without a usable content. *)
Definition emptyEnvelopeText : jsstring :=
  json "{'content':null,'pageStatusCode':200,'pageError':null}".

Definition emptyEnvelope : JSValue :=
  JObj [(lit "content", JNull); (lit "pageStatusCode", JNum 200);
        (lit "pageError", JNull)].

(** Environments for the scenarios below: a provider without a wait
    override, one fixed answer of the network, and what [JSON.parse] makes
    of the body. *)
Definition notFoundEnv : Env :=
  fixedEnv plainParams
    (Responded 404 (lit "Not Found") (lit "<html>missing</html>")) notJson.

Definition noContentEnv : Env :=
  fixedEnv plainParams (Responded 204 (lit "No Content") []) notJson.

Definition timeoutEnv : Env := fixedEnv plainParams (Failed timeoutError) notJson.

Definition refusedEnv : Env := fixedEnv plainParams (Failed refusedError) notJson.

Definition softEnv : Env :=
  fixedEnv plainParams (Responded 200 (lit "OK") softEnvelopeText)
    (parses softEnvelopeText softEnvelope).

Definition emptyEnv : Env :=
  fixedEnv plainParams (Responded 200 (lit "OK") emptyEnvelopeText)
    (parses emptyEnvelopeText emptyEnvelope).

(** The microservice answers 200 with the JSON text [null], which
    [JSON.parse] accepts: the envelope is the value [null]. *)
Definition nullEnvelopeEnv : Env :=
  fixedEnv plainParams (Responded 200 (lit "OK") (lit "null"))
    (parses (lit "null") JNull).

(** The microservice answers with the given outer status and an envelope
    that reports its own status 500 and error. *)
Definition outerStatusEnv (status : Z) (statusText : jsstring) : Env :=
  fixedEnv plainParams (Responded status statusText failedEnvelopeText)
    (parses failedEnvelopeText failedEnvelope).

(** A page that loads, behind a provider that answers and behind one that
    throws. *)
Definition pageEnvelopeText : jsstring :=
  json "{'content':'x','pageStatusCode':200,'pageError':null}".

Definition pageEnvelope : JSValue :=
  JObj [(lit "content", JStr (lit "x")); (lit "pageStatusCode", JNum 200);
        (lit "pageError", JNull)].

Definition pageEnv : Env :=
  fixedEnv plainParams (Responded 200 (lit "OK") pageEnvelopeText)
    (parses pageEnvelopeText pageEnvelope).

Definition brokenProviderEnv : Env :=
  fixedEnv (Throw (ErrorObject (lit "boom")))
    (Responded 200 (lit "OK") pageEnvelopeText) (parses pageEnvelopeText pageEnvelope).

(** ** Further sample inputs *)



Definition htmlEnv : Env :=
  fixedEnv plainParams (Responded 200 (lit "OK") (lit "<html>hi</html>")) notJson.

Definition pdfEnv : Env :=
  fixedEnv plainParams (Responded 200 (lit "OK") (lit "  %PDF-1.4 binary")) notJson.

Definition htmlBodyEnv : Env :=
  fixedEnv plainParams (Responded 200 (lit "OK") (lit "<html>oops</html>")) notJson.

(** An envelope whose content is a PDF, reported with status 206. *)
Definition pdfEnvelopeText : jsstring :=
  json "{'content':'%PDF-1.7 x','pageStatusCode':206,'pageError':'partial'}".

Definition pdfEnvelope : JSValue :=
  JObj [(lit "content", JStr (lit "%PDF-1.7 x")); (lit "pageStatusCode", JNum 206);
        (lit "pageError", JStr (lit "partial"))].

Definition pdfEnvelopeEnv : Env :=
  fixedEnv plainParams (Responded 200 (lit "OK") pdfEnvelopeText)
    (parses pdfEnvelopeText pdfEnvelope).

(** An envelope whose content is a number. *)
Definition numberEnvelopeText : jsstring :=
  json "{'content':42,'pageStatusCode':200}".

Definition numberEnvelope : JSValue :=
  JObj [(lit "content", JNum 42); (lit "pageStatusCode", JNum 200)].

Definition numberEnvelopeEnv : Env :=
  fixedEnv plainParams (Responded 200 (lit "OK") numberEnvelopeText)
    (parses numberEnvelopeText numberEnvelope).

Definition serverErrorEnv : Env :=
  fixedEnv plainParams
    (Responded 503 (lit "Service Unavailable") (lit "<html>down</html>")) notJson.

(** ** The logger (lib/logger.ts) *)

(** The own properties of an object, in insertion order; a key occurs
    once. (JavaScript lists integer-like keys first; no statement below
    depends on the order of keys.) *)
Definition Props : Type := list (jsstring * JSValue).

Definition hasOwn (name : jsstring) (props : Props) : bool :=
  existsb (fun kv => str_eqb (fst kv) name) props.

(** [delete info.name]. *)
Definition deleteProp (name : jsstring) (props : Props) : Props :=
  filter (fun kv => negb (str_eqb (fst kv) name)) props.

(** [zeroDataRetentionFilter]: the transform handed to [winston.format].
    The object is edited in place and returned; the model returns the
    edited properties. *)
Definition zeroDataRetentionFilter (info : Props) : Props :=
  if toBoolean (lookup (lit "zeroDataRetention") info) then
    let info := deleteProp (lit "zeroDataRetention") info in
    let info := deleteProp (lit "apiKey") info in
    let info := deleteProp (lit "teamId") info in
    let info := deleteProp (lit "userId") info in
    info
  else info.

(** ToString, as a template literal applies it to a value. A number is
    printed with all its digits, which is what JavaScript prints for an
    integer below 1e21 in magnitude; from there on it switches to the
    exponent notation, which is not modelled. *)
Fixpoint toStringValue (v : JSValue) : jsstring :=
  match v with
  | JUndefined => lit "undefined"
  | JNull => lit "null"
  | JBool true => lit "true"
  | JBool false => lit "false"
  | JNum n => decimal n
  | JStr s => s
  | JArr elems =>
      (fix join (l : list JSValue) : jsstring :=
         match l with
         | [] => []
         | x :: rest =>
             (if isNullish x then [] else toStringValue x)
             ++ match rest with
                | [] => []
                | _ :: _ => lit "," ++ join rest
                end
         end) elems
  | JObj _ => lit "[object Object]"
  end.

(** [logFormat]: the [printf] template of the console transport.
    [JSON.stringify] is the built-in, taken as it comes. The rest pattern
    [...meta] collects every property but the three named ones. *)
Definition logFormat (JSON_stringify : JSValue -> jsstring) (info : Props) : jsstring :=
  let timestamp := lookup (lit "timestamp") info in
  let level := lookup (lit "level") info in
  let message := lookup (lit "message") info in
  let meta :=
    deleteProp (lit "message") (deleteProp (lit "level")
      (deleteProp (lit "timestamp") info)) in
  let log := toStringValue timestamp ++ lit " [" ++ toStringValue level ++ lit "]: "
             ++ toStringValue message in
  if (0 <? List.length meta)%nat
  then log ++ lit " " ++ JSON_stringify (JObj meta)
  else log.

(** The enum [LogLevel]; the value of a member is its name. *)
Inductive LogLevel : Type := NONE | ERROR | WARN | INFO | DEBUG | TRACE.

Definition levelName (level : LogLevel) : jsstring :=
  match level with
  | NONE => lit "NONE"
  | ERROR => lit "ERROR"
  | WARN => lit "WARN"
  | INFO => lit "INFO"
  | DEBUG => lit "DEBUG"
  | TRACE => lit "TRACE"
  end.

(** The array [levels] of [Logger.log]. *)
Definition levels : list LogLevel := [NONE; ERROR; WARN; INFO; DEBUG; TRACE].

(** The names every object inherits from [Object.prototype]. Read from the
    enum object they yield a function (the prototype itself for
    [__proto__]): a truthy value that is no member of [levels]. *)
Definition objectPrototypeNames : list jsstring :=
  [lit "constructor"; lit "__defineGetter__"; lit "__defineSetter__";
   lit "hasOwnProperty"; lit "__lookupGetter__"; lit "__lookupSetter__";
   lit "isPrototypeOf"; lit "propertyIsEnumerable"; lit "toString";
   lit "valueOf"; lit "__proto__"; lit "toLocaleString"].

(** What [LogLevel[key]] can be. *)
Inductive Member : Type :=
| Own (level : LogLevel)
| Inherited
| Missing.

(** [LogLevel[process.env.LOGGING_LEVEL]]: the variable is a string or is
    unset, and an unset variable reads the key ["undefined"]. *)
Definition memberOf (LOGGING_LEVEL : option jsstring) : Member :=
  let key := match LOGGING_LEVEL with Some s => s | None => lit "undefined" end in
  match find (fun l => str_eqb (levelName l) key) levels with
  | Some l => Own l
  | None => if existsb (str_eqb key) objectPrototypeNames then Inherited else Missing
  end.

(** [levels.indexOf(x)], as an integer: -1 when [x] is no member. *)
Definition indexOfLevel (x : Member) : Z :=
  match x with
  | Own NONE => 0
  | Own ERROR => 1
  | Own WARN => 2
  | Own INFO => 3
  | Own DEBUG => 4
  | Own TRACE => 5
  | Inherited | Missing => -1
  end.

(** [String.prototype.toLowerCase] on ASCII text, which is all it is applied
    to here (the level names). *)
Definition toLowerCase (s : jsstring) : jsstring :=
  map (fun c => if (65 <=? c) && (c <=? 90) then c + 32 else c) s.

(** A call [winstonLogger.log(level, message, metadata)]. *)
Record WinstonCall : Type := {
  winstonLevel : jsstring;
  winstonMessage : JSValue;
  winstonMeta : Props
}.

(** [Logger.log]: the calls it makes on the winston logger (none or one).
    [metadata] is [None] when omitted. *)
Definition Logger_log (LOGGING_LEVEL : option jsstring) (message : JSValue)
    (level : LogLevel) (metadata : option Props) : list WinstonCall :=
  let logLevel :=
    match memberOf LOGGING_LEVEL with
    | Missing => Own INFO
    | found => found
    end in
  let currentLevelIndex := indexOfLevel logLevel in
  let messageLevelIndex := indexOfLevel (Own level) in
  if messageLevelIndex <=? currentLevelIndex
  then [{| winstonLevel := toLowerCase (levelName level);
           winstonMessage := message;
           winstonMeta := match metadata with Some m => m | None => [] end |}]
  else [].

Definition Logger_error env message metadata := Logger_log env message ERROR metadata.
Definition Logger_warn env message metadata := Logger_log env message WARN metadata.
Definition Logger_info env message metadata := Logger_log env message INFO metadata.
Definition Logger_debug env message metadata := Logger_log env message DEBUG metadata.
Definition Logger_trace env message metadata := Logger_log env message TRACE metadata.

(** Writing a property: an existing key keeps its place, a new one goes
    last. *)
Fixpoint setProp (name : jsstring) (v : JSValue) (props : Props) : Props :=
  match props with
  | [] => [(name, v)]
  | (k, w) :: rest =>
      if str_eqb k name then (k, v) :: rest else (k, w) :: setProp name v rest
  end.

(** [{ ...target, ...source }] onto the properties collected so far. *)
Definition spread (target source : Props) : Props :=
  fold_left (fun acc kv => setProp (fst kv) (snd kv) acc) source target.

(** [{ ...context, ...metadata }]; spreading [undefined] adds nothing. *)
Definition withContext (context : Props) (metadata : option Props) : Props :=
  spread (spread [] context) (match metadata with Some m => m | None => [] end).

(** The object [Logger.child(context)] returns: five methods, each handing
    the merged metadata to the method of [Logger] of the same name. *)
Record ChildLogger : Type := {
  child_error : JSValue -> option Props -> list WinstonCall;
  child_warn : JSValue -> option Props -> list WinstonCall;
  child_info : JSValue -> option Props -> list WinstonCall;
  child_debug : JSValue -> option Props -> list WinstonCall;
  child_trace : JSValue -> option Props -> list WinstonCall
}.

Definition Logger_child (LOGGING_LEVEL : option jsstring) (context : Props) : ChildLogger :=
  {| child_error := fun message metadata =>
       Logger_error LOGGING_LEVEL message (Some (withContext context metadata));
     child_warn := fun message metadata =>
       Logger_warn LOGGING_LEVEL message (Some (withContext context metadata));
     child_info := fun message metadata =>
       Logger_info LOGGING_LEVEL message (Some (withContext context metadata));
     child_debug := fun message metadata =>
       Logger_debug LOGGING_LEVEL message (Some (withContext context metadata));
     child_trace := fun message metadata =>
       Logger_trace LOGGING_LEVEL message (Some (withContext context metadata)) |}.

(** The keys [zeroDataRetentionFilter] deletes. *)
Definition sensitiveKeys : list jsstring :=
  [lit "zeroDataRetention"; lit "apiKey"; lit "teamId"; lit "userId"].

(** The keys [logFormat] prints outside the JSON part. *)
Definition headKeys : list jsstring := [lit "timestamp"; lit "level"; lit "message"].

Definition logHead (info : Props) : jsstring :=
  toStringValue (lookup (lit "timestamp") info) ++ lit " ["
  ++ toStringValue (lookup (lit "level") info) ++ lit "]: "
  ++ toStringValue (lookup (lit "message") info).

(** A log entry of a request made under zero data retention. *)
Definition retainedInfo : Props :=
  [(lit "level", JStr (lit "info")); (lit "message", JStr (lit "scrape done"));
   (lit "zeroDataRetention", JBool true); (lit "apiKey", JStr (lit "fc-123"));
   (lit "teamId", JStr (lit "t1")); (lit "jobId", JStr (lit "j9"))].

Definition plainInfo : Props :=
  [(lit "timestamp", JStr (lit "2024-01-01 00:00:00")); (lit "level", JStr (lit "info"));
   (lit "message", JStr (lit "ready"))].

(** ** The batch script *)

(** SameValueZero, the equality of [Set]. Two objects or arrays are equal
    only when they are the same object; the values compared here sit at
    different places of one [JSON.parse] result, so they never are. *)
Definition sameValueZero (a b : JSValue) : bool :=
  match a, b with
  | JUndefined, JUndefined => true
  | JNull, JNull => true
  | JBool x, JBool y => Bool.eqb x y
  | JNum x, JNum y => x =? y
  | JStr x, JStr y => str_eqb x y
  | _, _ => false
  end.

(** A [Set], as the list of its members in insertion order. *)
Definition setHas (x : JSValue) (members : list JSValue) : bool :=
  existsb (sameValueZero x) members.

Definition setAdd (x : JSValue) (members : list JSValue) : list JSValue :=
  if setHas x members then members else members ++ [x].

(** The [for] loop of [processResults]: [remaining] iterations are left
    when the index is [i], that is, [Math.min(100, results.length) - i]. *)
Fixpoint fillQueue (remaining i : nat) (results queue processedUrls : list JSValue)
  : Completion (list JSValue * list JSValue) :=
  match remaining with
  | O => Normal (queue, processedUrls)
  | S remaining' =>
      let queue := queue ++ [nth i results JUndefined] in
      (start_url <- getProp (nth i results JUndefined) (lit "start_url") ;;
       fillQueue remaining' (S i) results queue (setAdd start_url processedUrls))%completion
  end.

(** [processResults]. The function resolves to [undefined]; the model
    returns what its locals [queue] and [processedUrls] hold at the end
    (the counters [processedCount] and [starterCount] are never written). *)
Definition processResults (results : list JSValue)
  : Completion (list JSValue * list JSValue) :=
  fillQueue (Nat.min 100 (List.length results)) 0 results [] [].

(** What the script reaches outside: the log level of the process
    environment, [fs.readFile(path, "utf-8")] and [JSON.parse]. *)
Record ScriptEnv : Type := {
  LOGGING_LEVEL : option jsstring;
  readFile : jsstring -> Completion jsstring;
  parseJSON : jsstring -> Completion JSValue
}.

(** [getStartUrls]: the value it resolves to, with the calls made on the
    winston logger. *)
Definition getStartUrls (env : ScriptEnv) : Completion JSValue * list WinstonCall :=
  match (data <- readFile env (lit "starturls.json") ;; parseJSON env data)%completion with
  | Normal parsed => (Normal parsed, [])
  | Throw error =>
      match getProp error (lit "message") with
      | Normal message =>
          (Normal (JArr []),
           Logger_error (LOGGING_LEVEL env) (JStr (lit "Error reading starturls.json"))
             (Some [(lit "error", message)]))
      | Throw thrown => (Throw thrown, [])
      end
  end.

(** [x.slice(start, stop)] for integer indices [0 <= start <= stop]. *)
Definition sliceList {A} (start stop : Z) (l : list A) : list A :=
  firstn (Z.to_nat (stop - start)) (skipn (Z.to_nat start) l).

(** [(...).slice(3999, 6000)]: arrays and strings have the method. *)
Definition slice_3999_6000 (v : JSValue) : Completion JSValue :=
  match v with
  | JArr elems => Normal (JArr (sliceList 3999 6000 elems))
  | JStr s => Normal (JStr (sliceList 3999 6000 s))
  | JUndefined | JNull => cbind (getProp v (lit "slice")) (fun _ => Normal v)
  | _ => Throw (TypeError (lit "(intermediate value).slice is not a function"))
  end.

(** What [processResults] sees of its argument through [results.length]
    and [results[i]]: the elements of an array, the one-unit strings of a
    string. *)
Definition elementsOf (v : JSValue) : list JSValue :=
  match v with
  | JArr elems => elems
  | JStr s => map (fun c => JStr [c]) s
  | _ => []
  end.

(** [main]: whether it returns, with the calls made on the winston logger,
    those of the [then] and [catch] callbacks included. *)
Definition main (env : ScriptEnv) : Completion unit * list WinstonCall :=
  let (started, logged) := getStartUrls env in
  match (all <- started ;; slice_3999_6000 all)%completion with
  | Throw thrown => (Throw thrown, logged)
  | Normal results =>
      (Normal tt,
       logged ++
       match processResults (elementsOf results) with
       | Normal _ =>
           Logger_info (LOGGING_LEVEL env) (JStr (lit "All results processed.")) None
       | Throw error =>
           match getProp error (lit "message") with
           | Normal message =>
               Logger_error (LOGGING_LEVEL env) (JStr (lit "Error processing results"))
                 (Some [(lit "error", message)])
           | Throw _ => []
           end
       end)
  end.

(** The loop of [processResults] told by the elements it visits, and the
    value it reads from each. *)
Fixpoint fillFrom (visited queue processedUrls : list JSValue)
  : Completion (list JSValue * list JSValue) :=
  match visited with
  | [] => Normal (queue, processedUrls)
  | r :: rest =>
      (start_url <- getProp r (lit "start_url") ;;
       fillFrom rest (queue ++ [r]) (setAdd start_url processedUrls))%completion
  end.

(** Sample start files. *)
Definition startUrl (u : string) : JSValue := JObj [(lit "start_url", JStr (lit u))].

Definition threeResults : list JSValue :=
  [startUrl "https://a.example"; startUrl "https://b.example"; startUrl "https://a.example"].

Definition missingFile : ScriptEnv :=
  {| LOGGING_LEVEL := None;
     readFile := fun _ => Throw (ErrorObject (lit "ENOENT: no such file or directory"));
     parseJSON := notJson |}.

Definition smallFile : ScriptEnv :=
  {| LOGGING_LEVEL := None;
     readFile := fun _ => Normal (json "[{'start_url':'https://a.example'}]");
     parseJSON := parses (json "[{'start_url':'https://a.example'}]")
                    (JArr [startUrl "https://a.example"]) |}.

Definition objectFile : ScriptEnv :=
  {| LOGGING_LEVEL := None;
     readFile := fun _ => Normal (json "{'start_url':'https://a.example'}");
     parseJSON := parses (json "{'start_url':'https://a.example'}")
                    (startUrl "https://a.example") |}.



(** A start file of 4200 entries: the entries 3999 to 4098 that [main]
    examines are all there. *)
Definition longResults : list JSValue :=
  repeat (startUrl "https://a.example") (Z.to_nat 4200).



(** The same file with [null] as its entry 4000. *)
Definition holedResults : list JSValue :=
  repeat (startUrl "https://a.example") (Z.to_nat 4000)
  ++ JNull :: repeat (startUrl "https://a.example") (Z.to_nat 199).



(** * Properties *)

(** ** Runs on sample inputs *)

Example isPDFContent_header :
  isPDFContent (JStr (lit "  %PDF-1.4 ...")) = Normal true.
Proof. vm_compute. reflexivity. Qed.

Example isPDFContent_html :
  isPDFContent (JStr (lit "<html>hi</html>")) = Normal false.
Proof. vm_compute. reflexivity. Qed.

Example isPDFContent_markers :
  isPDFContent (JStr (lit "1 0 obj stream endstream endobj")) = Normal true.
Proof. vm_compute. reflexivity. Qed.

(** Status 200 with an HTML body: the success result. *)
Example scrapeWithFetch_ok :
  fst (scrapeWithFetch
         (fixedEnv plainParams (Responded 200 (lit "OK") (lit "<html>hi</html>")) notJson)
         exampleUrl)
  = Normal {| content := JStr (lit "<html>hi</html>");
              pageStatusCode := JNum 200;
              pageError := JNull |}.
Proof. vm_compute. reflexivity. Qed.

(** Status 200 with a PDF body: rejected. *)
Example scrapeWithFetch_pdf :
  fst (scrapeWithFetch
         (fixedEnv plainParams (Responded 200 (lit "OK") (lit "%PDF-1.4 ...")) notJson)
         exampleUrl)
  = Normal {| content := JStr [];
              pageStatusCode := JNum 200;
              pageError := JStr pdfDetected |}.
Proof. vm_compute. reflexivity. Qed.

(** A well-formed envelope under outer status 200. *)
Example scrapeWithPlaywright_ok :
  fst (scrapeWithPlaywright pageEnv exampleUrl None JUndefined)
  = Normal {| content := JStr (lit "x");
              pageStatusCode := JNum 200;
              pageError := JNull |}.
Proof. vm_compute. reflexivity. Qed.

(** A body that is not JSON. *)
Example scrapeWithPlaywright_bad_json :
  fst (scrapeWithPlaywright
         (fixedEnv plainParams (Responded 200 (lit "OK") (lit "<html>oops</html>")) notJson)
         exampleUrl None JUndefined)
  = Normal {| content := JStr [];
              pageStatusCode := JNull;
              pageError := JStr (lit "Unexpected token < in JSON at position 0") |}.
Proof. vm_compute. reflexivity. Qed.

(** ** Searching and trimming *)

Lemma startsWith_app p : forall s, startsWith s p = true <-> exists b, s = p ++ b.
Proof.
  induction p as [| c p IH]; intros s; simpl.
  - split; [intros _; exists s; reflexivity | reflexivity].
  - destruct s as [| d s].
    + split; [discriminate | intros [b Hb]; discriminate].
    + rewrite andb_true_iff, Z.eqb_eq, IH. split.
      * intros [-> [b ->]]. exists b. reflexivity.
      * intros [b Hb]. injection Hb as -> ->. split; [reflexivity | eauto].
Qed.

Lemma includes_app p :
  forall s, includes s p = true <-> exists a b, s = a ++ p ++ b.
Proof.
  induction s as [| d s IH].
  - simpl. rewrite startsWith_app. split.
    + intros [b Hb]. exists [], b. exact Hb.
    + intros [a [b Hab]]. destruct a; [| discriminate]. exists b. exact Hab.
  - cbn [includes]. rewrite orb_true_iff, startsWith_app, IH. split.
    + intros [[b Hb] | [a [b Hab]]].
      * exists [], b. exact Hb.
      * exists (d :: a), b. rewrite Hab. reflexivity.
    + intros [a [b Hab]]. destruct a as [| x a].
      * left. exists b. exact Hab.
      * right. injection Hab as _ Hs. exists a, b. exact Hs.
Qed.

Lemma includes_rev_true s p :
  includes s p = true -> includes (rev s) (rev p) = true.
Proof.
  rewrite !includes_app. intros [a [b ->]].
  exists (rev b), (rev a). rewrite !rev_app_distr, app_assoc. reflexivity.
Qed.

Lemma includes_rev s p : includes (rev s) (rev p) = includes s p.
Proof.
  destruct (includes s p) eqn:E.
  - apply includes_rev_true. exact E.
  - destruct (includes (rev s) (rev p)) eqn:E'; [| reflexivity].
    apply includes_rev_true in E'. rewrite !rev_involutive in E'. congruence.
Qed.

(** Leading white space never takes part in a match of a pattern that
    starts with another character. *)
Lemma includes_trimStart c p :
  isWhiteSpace c = false ->
  forall s, includes (trimStart s) (c :: p) = includes s (c :: p).
Proof.
  intros Hc. induction s as [| d s IH]; [reflexivity |].
  cbn [trimStart]. destruct (isWhiteSpace d) eqn:Hd; [| reflexivity].
  rewrite IH. cbn [includes startsWith].
  destruct (Z.eqb_spec c d) as [-> | _]; [congruence | reflexivity].
Qed.

Lemma includes_trimEnd q c :
  isWhiteSpace c = false ->
  forall s, includes (trimEnd s) (q ++ [c]) = includes s (q ++ [c]).
Proof.
  intros Hc s. unfold trimEnd.
  rewrite <- (includes_rev (rev _)), rev_involutive, rev_app_distr. cbn [rev app].
  rewrite includes_trimStart by exact Hc.
  rewrite <- (includes_rev s), rev_app_distr. reflexivity.
Qed.

Lemma includes_trim c p q d :
  isWhiteSpace c = false -> isWhiteSpace d = false -> c :: p = q ++ [d] ->
  forall s, includes (trim s) (c :: p) = includes s (c :: p).
Proof.
  intros Hc Hd E s. unfold trim.
  rewrite E, includes_trimEnd by exact Hd.
  rewrite <- E. apply includes_trimStart. exact Hc.
Qed.

(** The markers hold no white space: trimming neither adds nor loses one. *)
Lemma includes_trim_marker s m :
  In m markers -> includes (trim s) m = includes s m.
Proof.
  intros [<- | [<- | [<- | [<- | []]]]].
  - apply (includes_trim 111 (lit "bj") (lit "ob") 106); reflexivity.
  - apply (includes_trim 101 (lit "ndobj") (lit "endob") 106); reflexivity.
  - apply (includes_trim 115 (lit "tream") (lit "strea") 109); reflexivity.
  - apply (includes_trim 101 (lit "ndstream") (lit "endstrea") 109); reflexivity.
Qed.

Lemma hasAllMarkers_trim s : hasAllMarkers (trim s) = hasAllMarkers s.
Proof.
  unfold hasAllMarkers.
  rewrite !includes_trim_marker by (unfold markers; simpl; auto 6).
  reflexivity.
Qed.

Lemma trim_nil : trim [] = [].
Proof. reflexivity. Qed.

(** ** The classifier *)

Lemma hasAllMarkers_forall t :
  hasAllMarkers t = true <-> (forall m, In m markers -> includes t m = true).
Proof.
  unfold hasAllMarkers, markers. rewrite !andb_true_iff. split.
  - intros [[[H1 H2] H3] H4] m [<- | [<- | [<- | [<- | []]]]]; assumption.
  - intros H. repeat split; apply H; simpl; auto 6.
Qed.

Lemma hasAllMarkers_missing t :
  hasAllMarkers t = false <-> (exists m, In m markers /\ includes t m = false).
Proof.
  split.
  - unfold hasAllMarkers. rewrite !andb_false_iff.
    intros [[[H | H] | H] | H]; eexists; (split; [| exact H]);
      unfold markers; simpl; auto 6.
  - intros [m [Hin Hm]]. destruct (hasAllMarkers t) eqn:E; [| reflexivity].
    rewrite hasAllMarkers_forall in E. rewrite (E m Hin) in Hm. discriminate.
Qed.

(** What the classifier computes on a string. *)
Lemma isPDFContent_string s :
  isPDFContent (JStr s) =
  Normal (match s with
          | [] => false
          | _ :: _ => startsWith (trim s) (lit "%PDF-")
                      || hasAllMarkers (trim s) || nonPrintableRule s
          end).
Proof.
  destruct s as [| c s]; [reflexivity |].
  unfold isPDFContent, nonPrintableRule.
  change (toBoolean (JStr (c :: s))) with true.
  change (str_eqb (typeof (JStr (c :: s))) (lit "string")) with true.
  cbn [negb orb callMethod lengthOf cbind].
  destruct (startsWith (trim (c :: s)) (lit "%PDF-")); [reflexivity |].
  destruct (hasAllMarkers (trim (c :: s))); [reflexivity |].
  cbn [orb].
  destruct (_ && _); reflexivity.
Qed.

Lemma isPDFContent_not_string v :
  (forall s, v <> JStr s) -> isPDFContent v = Normal false.
Proof.
  intros H. destruct v; try reflexivity.
  - unfold isPDFContent. cbn [toBoolean]. destruct b; reflexivity.
  - unfold isPDFContent. cbn [toBoolean]. destruct (n =? 0); reflexivity.
  - exfalso. apply (H s). reflexivity.
Qed.

Lemma isPDFContent_total v : exists b, isPDFContent v = Normal b.
Proof.
  destruct v; try (exists false; apply isPDFContent_not_string; discriminate).
  rewrite isPDFContent_string. eauto.
Qed.

(** C9: [isPDFContent] never throws, whatever value it is given, and an
    input that is not a string ([null] and [undefined] included) is
    classified as not binary. *)
Theorem isPDFContent_safe_C9 (v : JSValue) :
  (exists b, isPDFContent v = Normal b)
  /\ ((forall s, v <> JStr s) -> isPDFContent v = Normal false).
Proof.
  split; [apply isPDFContent_total | apply isPDFContent_not_string].
Qed.

Lemma isPDFContent_safe_C9_witness :
  isPDFContent JUndefined = Normal false
  /\ isPDFContent JNull = Normal false
  /\ isPDFContent (JNum 42) = Normal false
  /\ isPDFContent (JObj [(lit "content", JStr (lit "%PDF-"))]) = Normal false.
Proof.
  split; [| split; [| split]].
  - apply (proj2 (isPDFContent_safe_C9 JUndefined)). discriminate.
  - apply (proj2 (isPDFContent_safe_C9 JNull)). discriminate.
  - apply (proj2 (isPDFContent_safe_C9 (JNum 42))). discriminate.
  - apply (proj2 (isPDFContent_safe_C9 (JObj [(lit "content", JStr (lit "%PDF-"))]))).
    discriminate.
Defined.

(** C7: a string of at most 100 characters that does not start, once
    trimmed, with [%PDF-] and does not contain all four markers is
    classified as not binary, whatever share of it is non-printable. *)
Theorem isPDFContent_short_C7 (s : jsstring) :
  (List.length s <= 100)%nat ->
  startsWith (trim s) (lit "%PDF-") = false ->
  ~ (forall m, In m markers -> includes s m = true) ->
  isPDFContent (JStr s) = Normal false.
Proof.
  intros Hlen Hhead Hmark. rewrite isPDFContent_string.
  destruct s as [| c s]; [reflexivity |].
  rewrite Hhead, hasAllMarkers_trim.
  destruct (hasAllMarkers (c :: s)) eqn:E.
  - exfalso. apply Hmark. apply hasAllMarkers_forall. exact E.
  - unfold nonPrintableRule.
    destruct (Nat.ltb_spec 100 (List.length (c :: s))) as [Hgt | _]; [lia | reflexivity].
Qed.

(** Five control characters: every character is non-printable. *)
Lemma isPDFContent_short_C7_witness :
  isPDFContent (JStr [1; 2; 3; 4; 5]) = Normal false.
Proof.
  apply (isPDFContent_short_C7 [1; 2; 3; 4; 5]).
  - simpl. lia.
  - reflexivity.
  - intros H. specialize (H (lit "obj") (or_introl eq_refl)). discriminate H.
Defined.

(** C4, the claim as stated fails: with the marker [endstream] removed the
    classifier still answers true when rule 3 fires (a content of 118
    characters, 100 of them control characters) or when rule 1 fires (a
    content under a [%PDF-] header). *)
Lemma isPDFContent_markers_C4_counterexample :
  (noisyWithMarkers = lit "obj endobj stream " ++ lit "endstream" ++ repeat 1 100
   /\ noisyWithoutEndstream = lit "obj endobj stream " ++ repeat 1 100
   /\ hasAllMarkers (trim noisyWithMarkers) = true
   /\ includes (trim noisyWithoutEndstream) (lit "endstream") = false
   /\ isPDFContent (JStr noisyWithoutEndstream) = Normal true)
  /\ (headedWithMarkers = lit "%PDF-1.4 obj endobj stream " ++ lit "endstream"
      /\ headedWithoutEndstream = lit "%PDF-1.4 obj endobj stream "
      /\ hasAllMarkers (trim headedWithMarkers) = true
      /\ includes (trim headedWithoutEndstream) (lit "endstream") = false
      /\ isPDFContent (JStr headedWithoutEndstream) = Normal true).
Proof. vm_compute. repeat split. Qed.

(** C4, amended: a string whose trimmed form contains all four markers is
    classified as binary; a string whose trimmed form lacks one of them is
    classified as not binary provided neither other rule fires, that is,
    the trimmed form does not start with [%PDF-] and the content is not
    both longer than 100 characters and more than a tenth non-printable. *)
Theorem isPDFContent_markers_C4 (s : jsstring) :
  ((forall m, In m markers -> includes (trim s) m = true) ->
   isPDFContent (JStr s) = Normal true)
  /\ ((exists m, In m markers /\ includes (trim s) m = false) ->
      startsWith (trim s) (lit "%PDF-") = false ->
      nonPrintableRule s = false ->
      isPDFContent (JStr s) = Normal false).
Proof.
  split.
  - intros H. apply hasAllMarkers_forall in H. rewrite isPDFContent_string.
    destruct s as [| c s]; [rewrite trim_nil in H; discriminate H |].
    rewrite H, orb_true_r. reflexivity.
  - intros Hmiss Hhead Hrule. apply hasAllMarkers_missing in Hmiss.
    rewrite isPDFContent_string, Hhead, Hmiss, Hrule.
    destruct s; reflexivity.
Qed.

Lemma isPDFContent_markers_C4_witness :
  isPDFContent (JStr (lit " endstream stream endobj obj ")) = Normal true
  /\ isPDFContent (JStr (lit "obj endobj stream ")) = Normal false.
Proof.
  split.
  - apply (proj1 (isPDFContent_markers_C4 (lit " endstream stream endobj obj "))).
    intros m [<- | [<- | [<- | [<- | []]]]]; reflexivity.
  - apply (proj2 (isPDFContent_markers_C4 (lit "obj endobj stream "))).
    + exists (lit "endstream"). split; [simpl; auto 6 | reflexivity].
    + reflexivity.
    + reflexivity.
Defined.

(** ** Runs of the scrapers *)

(** The [catch] block always returns the failure shape, and touches
    neither the success flag nor the list of calls. *)
Lemma catchTransport_returns e st c st' :
  catchTransport e st = (c, st') ->
  success (logParams st') = success (logParams st)
  /\ calls st' = calls st
  /\ (forall r, c = Normal r -> content r = JStr [] /\ pageStatusCode r = JNull).
Proof.
  unfold catchTransport, bind, liftC, modifyLog, getLog, ret.
  destruct (getProp e (lit "code")) as [code | t].
  - destruct (strictEqualsStr code (lit "ECONNABORTED")).
    + intros [= <- <-]. cbn. split; [| split]; try reflexivity.
      intros r [= <-]. cbn. auto.
    + destruct (getProp e (lit "message")) as [m | t].
      * intros [= <- <-]. cbn. split; [| split]; try reflexivity.
        intros r [= <-]. cbn. auto.
      * intros [= <- <-]. split; [| split]; try reflexivity. intros r [=].
  - intros [= <- <-]. split; [| split]; try reflexivity. intros r [=].
Qed.

Lemma catchTransport_timeout e code st :
  getProp e (lit "code") = Normal code ->
  strictEqualsStr code (lit "ECONNABORTED") = true ->
  fst (catchTransport e st)
  = Normal {| content := JStr [];
              pageStatusCode := JNull;
              pageError := JStr (lit "Request timed out") |}.
Proof.
  intros Hc Ht. unfold catchTransport, bind, liftC, modifyLog, getLog, ret.
  rewrite Hc, Ht. reflexivity.
Qed.

Lemma catchTransport_other e code message st :
  getProp e (lit "code") = Normal code ->
  strictEqualsStr code (lit "ECONNABORTED") = false ->
  getProp e (lit "message") = Normal message ->
  fst (catchTransport e st)
  = Normal {| content := JStr [];
              pageStatusCode := JNull;
              pageError := if toBoolean message then message else e |}.
Proof.
  intros Hc Ht Hm. unfold catchTransport, bind, liftC, modifyLog, getLog, ret.
  rewrite Hc, Ht, Hm. reflexivity.
Qed.

(** axios resolves exactly on a response whose status passes
    [validateStatus] (or is 0). *)
Lemma settle_Normal x response :
  settle x = Normal response ->
  x = Responded (status response) (statusText response) (data response).
Proof.
  destruct x as [st txt body | e]; simpl; [| discriminate].
  destruct ((st =? 0) || validateStatus st); [| discriminate].
  intros [= <-]. reflexivity.
Qed.

Lemma settle_rejected st txt body :
  st <> 0 -> validateStatus st = false ->
  settle (Responded st txt body)
  = Throw (AxiosError (lit "Request failed with status code " ++ decimal st)
                      (statusErrorCode st)).
Proof.
  intros H0 Hv. simpl. rewrite Hv.
  destruct (Z.eqb_spec st 0); [contradiction | reflexivity].
Qed.

(** Reading a property of the body text of a response yields
    [undefined]: the text is a string, not the envelope. *)
Lemma getPropOpt_text body name : getPropOpt (JStr body) name = Normal JUndefined.
Proof. reflexivity. Qed.

Lemma getProp_defined v name x name' :
  getProp v name = Normal x -> exists y, getProp v name' = Normal y.
Proof. destruct v; simpl; try discriminate; eauto. Qed.

Ltac expose :=
  cbv beta iota zeta delta
    [scrapeWithFetch scrapeWithPlaywright start tryCatch bind axios liftC
     modifyLog getLog ret];
  cbn [logParams calls fst snd].

(** A scrutinee of the goal that is not itself a case analysis. *)
Ltac scrutinee t :=
  match t with
  | context [match ?x with _ => _ end] =>
      lazymatch x with
      | context [match _ with _ => _ end] => fail
      | _ => x
      end
  end.

Ltac run_step :=
  lazymatch goal with
  | |- ?g =>
      let x := scrutinee g in
      lazymatch x with
      | isPDFContent ?v =>
          let b := fresh "isPdf" in
          let E := fresh "Hpdf" in
          destruct (isPDFContent_total v) as [b E]; rewrite E
      | getPropOpt (JStr ?b) ?n => rewrite (getPropOpt_text b n)
      | getProp ?v ?n =>
          match goal with
          | H : getProp v _ = Normal _ |- _ =>
              let y := fresh "field" in
              let E := fresh "Hfield" in
              destruct (getProp_defined _ _ _ n H) as [y E]; rewrite E
          | _ => destruct x eqn:?
          end
      | _ => destruct x eqn:?
      end
  end; expose.

(** Every exit of a run: what was returned, with the final state. *)
Ltac run_cases := expose; repeat run_step.

Ltac fields :=
  cbn [content pageStatusCode pageError success logParams calls app
       set_success set_response_code set_error_message set_html
       response_code error_message html].

(** Close a leaf whose run ended in the [catch] block. *)
Ltac by_catch H :=
  apply catchTransport_returns in H; cbn [logParams calls success] in H;
  let Hs := fresh "Hs" in
  let Hc := fresh "Hc" in
  let Hr := fresh "Hr" in
  destruct H as [Hs [Hc Hr]].

Lemma statusPaired_absent r : isPresent (pageStatusCode r) = false -> statusPaired r.
Proof. intros H Hp. congruence. Qed.

Lemma statusPaired_error r : isPresent (pageError r) = true -> statusPaired r.
Proof. intros H _ _. exact H. Qed.

Create HintDb scraper.
#[local] Hint Resolve statusPaired_absent statusPaired_error : scraper.

(** Every return of [scrapeWithFetch]: failures carry an empty content,
    and a status other than 200 comes with an error. *)
Lemma scrapeWithFetch_exits env url c st :
  scrapeWithFetch env url = (c, st) ->
  forall r, c = Normal r ->
    (success (logParams st) = false -> content r = JStr [])
    /\ statusPaired r.
Proof.
  run_cases.
  - intros [= <- <-] r [= <-]. cbn. auto with scraper.
  - intros [= <- <-] r [= <-]. cbn. auto with scraper.
  - intros [= <- <-] r [= <-]. cbn. split; [discriminate |].
    apply negb_false_iff, Z.eqb_eq in Heqb. rewrite Heqb.
    intros _ H. contradiction H. reflexivity.
  - intros H r ->. by_catch H. destruct (Hr r eq_refl) as [Hcontent Hstatus].
    split; [auto |]. apply statusPaired_absent. rewrite Hstatus. reflexivity.
Qed.

(** Every return of [scrapeWithPlaywright]: failures carry an empty
    content and pair a status other than 200 with an error; the success
    return hands on the two fields of the parsed envelope. *)
Lemma scrapeWithPlaywright_exits env url waitFor headers c st :
  scrapeWithPlaywright env url waitFor headers = (c, st) ->
  forall r, c = Normal r ->
    (success (logParams st) = false -> content r = JStr [] /\ statusPaired r)
    /\ (success (logParams st) = true ->
        exists call txt body envelope,
          calls st = [call]
          /\ network env call = Responded 200 txt body
          /\ JSON_parse env body = Normal envelope
          /\ getProp envelope (lit "pageStatusCode") = Normal (pageStatusCode r)
          /\ getProp envelope (lit "pageError") = Normal (pageError r)).
Proof.
  run_cases.
  all: try (intros H r ->; by_catch H; destruct (Hr r eq_refl) as [Hcontent Hstatus];
            split; [ intros _; split; [exact Hcontent |];
                     apply statusPaired_absent; rewrite Hstatus; reflexivity
                   | intros Htrue; rewrite Hs in Htrue; discriminate Htrue ]).
  all: intros [= <- <-] r [= <-]; fields.
  all: try (split; [ intros _; split; [reflexivity |]; auto with scraper
                   | discriminate ]).
  split; [discriminate |]. intros _.
  apply settle_Normal in Heqc3. apply negb_false_iff, Z.eqb_eq in Heqb.
  rewrite Heqb in Heqc3. eauto 10.
Qed.

Lemma resolveWait_Normal env url waitFor waitParam :
  resolveWait env url waitFor = Normal waitParam ->
  exists reqParams params wait,
    generateRequestParams env url = Normal reqParams
    /\ getProp reqParams (lit "params") = Normal params
    /\ getPropOpt params (lit "wait") = Normal wait
    /\ waitParam = nullish wait (JNum (orZero waitFor)).
Proof.
  unfold resolveWait, cbind.
  destruct (generateRequestParams env url) as [rp |] eqn:H1; [| discriminate].
  destruct (getProp rp (lit "params")) as [ps |] eqn:H2; [| discriminate].
  destruct (getPropOpt ps (lit "wait")) as [wt |] eqn:H3; [| discriminate].
  intros [= <-]. exists rp, ps, wt. auto.
Qed.

(** A failure of the POST ends in the [catch] block. *)
Lemma scrapeWithPlaywright_rejected env url waitFor headers waitParam e :
  resolveWait env url waitFor = Normal waitParam ->
  settle (network env (postCall env url waitParam headers)) = Throw e ->
  exists st0,
    scrapeWithPlaywright env url waitFor headers = catchTransport e st0
    /\ calls st0 = [postCall env url waitParam headers].
Proof.
  intros Hw Hs. apply resolveWait_Normal in Hw.
  destruct Hw as (rp & ps & wt & H1 & H2 & H3 & ->). unfold postCall in Hs.
  expose. rewrite H1, H2, H3, Hs. eexists. split; reflexivity.
Qed.

(** A failure of the provider ends in the [catch] block before any call
    is made. *)
Lemma scrapeWithPlaywright_provider_throws env url waitFor headers e :
  generateRequestParams env url = Throw e ->
  exists st0,
    scrapeWithPlaywright env url waitFor headers = catchTransport e st0
    /\ calls st0 = [].
Proof.
  intros H. expose. rewrite H. eexists. split; reflexivity.
Qed.

Lemma scrapeWithFetch_rejected env url e :
  settle (network env (Get url (universalTimeout env))) = Throw e ->
  exists st0,
    scrapeWithFetch env url = catchTransport e st0
    /\ calls st0 = [Get url (universalTimeout env)].
Proof.
  intros H. expose. rewrite H. eexists. split; reflexivity.
Qed.

(** The status branch of [scrapeWithFetch], reached when axios resolves
    with a status other than 200: the status and its reason phrase are
    returned. *)
Lemma scrapeWithFetch_status_branch env url st txt body :
  network env (Get url (universalTimeout env)) = Responded st txt body ->
  validateStatus st = true -> st <> 200 ->
  fst (scrapeWithFetch env url)
  = Normal {| content := JStr []; pageStatusCode := JNum st; pageError := JStr txt |}.
Proof.
  intros Hn Hv Hst. expose. rewrite Hn. cbn [settle]. rewrite Hv, orb_true_r.
  cbn [status statusText].
  destruct (Z.eqb_spec st 200); [contradiction | reflexivity].
Qed.

(** A status outside the 2xx range never reaches that branch: axios
    rejects, and the [catch] block reports the rejection instead. *)
Lemma scrapeWithFetch_bad_status env url st txt body :
  network env (Get url (universalTimeout env)) = Responded st txt body ->
  st <> 0 -> validateStatus st = false ->
  fst (scrapeWithFetch env url)
  = Normal {| content := JStr [];
              pageStatusCode := JNull;
              pageError := JStr (lit "Request failed with status code " ++ decimal st) |}.
Proof.
  intros Hn H0 Hv.
  destruct (scrapeWithFetch_rejected env url _
              (eq_trans (f_equal settle Hn) (settle_rejected st txt body H0 Hv)))
    as [st0 [-> _]].
  unfold catchTransport, bind, liftC, modifyLog, getLog, ret.
  cbn [getProp AxiosError lookup].
  change (str_eqb (lit "name") (lit "code")) with false.
  change (str_eqb (lit "message") (lit "code")) with false.
  change (str_eqb (lit "code") (lit "code")) with true.
  change (str_eqb (lit "name") (lit "message")) with false.
  change (str_eqb (lit "message") (lit "message")) with true.
  cbv iota.
  assert (Hcode : strictEqualsStr (statusErrorCode st) (lit "ECONNABORTED") = false).
  { unfold statusErrorCode. destruct (st / 100 - 4) as [| [| |] |]; reflexivity. }
  rewrite Hcode. cbn [fst]. fields. unfold jsOr. reflexivity.
Qed.

(** Under an outer status other than 200 nothing of the body reaches the
    result of [scrapeWithPlaywright]: the status is absent. *)
Lemma scrapeWithPlaywright_outer_status env url waitFor headers waitParam st txt body :
  resolveWait env url waitFor = Normal waitParam ->
  network env (postCall env url waitParam headers) = Responded st txt body ->
  st <> 200 ->
  forall r, fst (scrapeWithPlaywright env url waitFor headers) = Normal r ->
    content r = JStr [] /\ isPresent (pageStatusCode r) = false.
Proof.
  intros Hw Hn Hst r.
  destruct (settle (Responded st txt body)) as [response | e] eqn:Hs.
  - apply resolveWait_Normal in Hw.
    destruct Hw as (rp & ps & wt & H1 & H2 & H3 & ->). unfold postCall in Hn.
    expose. rewrite H1, H2, H3, Hn, Hs.
    apply settle_Normal in Hs. injection Hs as -> _ _.
    destruct (Z.eqb_spec (status response) 200); [contradiction |].
    cbn [negb]. rewrite !getPropOpt_text. cbn [fst]. intros [= <-]. auto.
  - rewrite <- Hn in Hs.
    destruct (scrapeWithPlaywright_rejected _ _ _ _ _ _ Hw Hs) as [st0 [-> _]].
    destruct (catchTransport e st0) as [c st'] eqn:Hc. cbn [fst]. intros ->.
    by_catch Hc. destruct (Hr r eq_refl) as [Hcontent Hstatus].
    rewrite Hstatus. auto.
Qed.

(** What was sent: nothing if resolving the wait value threw, else the one
    POST carrying it. *)
Lemma scrapeWithPlaywright_calls env url waitFor headers :
  calls (snd (scrapeWithPlaywright env url waitFor headers))
  = match resolveWait env url waitFor with
    | Normal waitParam => [postCall env url waitParam headers]
    | Throw _ => []
    end.
Proof.
  unfold resolveWait, cbind, postCall.
  destruct (scrapeWithPlaywright env url waitFor headers) as [c st] eqn:Hrun.
  cbn [snd]. revert Hrun. expose.
  destruct (generateRequestParams env url) as [rp | e]; expose;
    [destruct (getProp rp (lit "params")) as [ps | e]; expose;
     [destruct (getPropOpt ps (lit "wait")) as [wt | e]; expose |] |].
  2-4: intros H; by_catch H; exact Hc.
  repeat run_step.
  all: try (intros H; by_catch H; exact Hc).
  all: intros [= <- <-]; reflexivity.
Qed.

(** ** The fetch contract *)

(** C5: whenever either scraper returns without having taken its success
    path (the [success] flag of its log record is still false: status
    error, transport error, timeout, JSON parse error or rejected binary
    content), the content of the result is the empty string. *)
Theorem failure_content_empty_C5 env url waitFor headers :
  (forall r,
      fst (scrapeWithFetch env url) = Normal r ->
      success (logParams (snd (scrapeWithFetch env url))) = false ->
      content r = JStr [])
  /\ (forall r,
      fst (scrapeWithPlaywright env url waitFor headers) = Normal r ->
      success (logParams (snd (scrapeWithPlaywright env url waitFor headers))) = false ->
      content r = JStr []).
Proof.
  split; intros r.
  - destruct (scrapeWithFetch env url) as [c st] eqn:Hrun. cbn [fst snd].
    intros -> Hs. exact (proj1 (scrapeWithFetch_exits _ _ _ _ Hrun r eq_refl) Hs).
  - destruct (scrapeWithPlaywright env url waitFor headers) as [c st] eqn:Hrun.
    cbn [fst snd]. intros -> Hs.
    exact (proj1 (proj1 (scrapeWithPlaywright_exits _ _ _ _ _ _ Hrun r eq_refl) Hs)).
Qed.

Lemma failure_content_empty_C5_witness :
  (exists r, fst (scrapeWithFetch timeoutEnv exampleUrl) = Normal r
             /\ content r = JStr [])
  /\ (exists r, fst (scrapeWithPlaywright (outerStatusEnv 500 (lit "Internal Server Error"))
                       exampleUrl None JUndefined) = Normal r
                /\ content r = JStr []).
Proof.
  split; eexists; (split; [reflexivity |]).
  - apply (proj1 (failure_content_empty_C5 timeoutEnv exampleUrl None JUndefined));
      reflexivity.
  - apply (proj2 (failure_content_empty_C5
                    (outerStatusEnv 500 (lit "Internal Server Error"))
                    exampleUrl None JUndefined));
      reflexivity.
Defined.

(** C1, the claim as stated fails: on its success path
    [scrapeWithPlaywright] hands on an envelope that reports status 404
    and no error. *)
Lemma status_pairing_C1_counterexample :
  fst (scrapeWithPlaywright softEnv exampleUrl None JUndefined)
  = Normal {| content := JStr (lit "<html>gone</html>");
              pageStatusCode := JNum 404;
              pageError := JNull |}
  /\ ~ statusPaired {| content := JStr (lit "<html>gone</html>");
                       pageStatusCode := JNum 404;
                       pageError := JNull |}.
Proof.
  split; [vm_compute; reflexivity |].
  intros H. assert (E : isPresent JNull = true) by (apply H; [reflexivity | discriminate]).
  discriminate E.
Qed.

(** C1, amended: every result of [scrapeWithFetch], and every result
    [scrapeWithPlaywright] returns off its success path, pairs a present
    status other than 200 with a present error; on the success path of
    [scrapeWithPlaywright] the status and the error of the result are those
    of the parsed envelope, unchanged, so the pairing holds there when the
    envelope has it. *)
Theorem status_pairing_C1 env url waitFor headers :
  (forall r, fst (scrapeWithFetch env url) = Normal r -> statusPaired r)
  /\ (forall r,
      fst (scrapeWithPlaywright env url waitFor headers) = Normal r ->
      success (logParams (snd (scrapeWithPlaywright env url waitFor headers))) = false ->
      statusPaired r)
  /\ (forall r,
      fst (scrapeWithPlaywright env url waitFor headers) = Normal r ->
      success (logParams (snd (scrapeWithPlaywright env url waitFor headers))) = true ->
      exists call txt body envelope,
        calls (snd (scrapeWithPlaywright env url waitFor headers)) = [call]
        /\ network env call = Responded 200 txt body
        /\ JSON_parse env body = Normal envelope
        /\ getProp envelope (lit "pageStatusCode") = Normal (pageStatusCode r)
        /\ getProp envelope (lit "pageError") = Normal (pageError r)).
Proof.
  split; [| split]; intros r.
  - destruct (scrapeWithFetch env url) as [c st] eqn:Hrun. cbn [fst].
    intros ->. exact (proj2 (scrapeWithFetch_exits _ _ _ _ Hrun r eq_refl)).
  - destruct (scrapeWithPlaywright env url waitFor headers) as [c st] eqn:Hrun.
    cbn [fst snd]. intros -> Hs.
    exact (proj2 (proj1 (scrapeWithPlaywright_exits _ _ _ _ _ _ Hrun r eq_refl) Hs)).
  - destruct (scrapeWithPlaywright env url waitFor headers) as [c st] eqn:Hrun.
    cbn [fst snd]. intros -> Hs.
    exact (proj2 (scrapeWithPlaywright_exits _ _ _ _ _ _ Hrun r eq_refl) Hs).
Qed.

Lemma status_pairing_C1_witness :
  (exists r, fst (scrapeWithFetch noContentEnv exampleUrl) = Normal r
             /\ pageStatusCode r = JNum 204 /\ statusPaired r)
  /\ (exists r, fst (scrapeWithPlaywright emptyEnv exampleUrl None JUndefined) = Normal r
                /\ getProp emptyEnvelope (lit "pageStatusCode") = Normal (pageStatusCode r)).
Proof.
  split.
  - eexists. split; [reflexivity |]. split; [reflexivity |].
    apply (proj1 (status_pairing_C1 noContentEnv exampleUrl None JUndefined)).
    reflexivity.
  - eexists. split; [reflexivity |].
    destruct (proj2 (proj2 (status_pairing_C1 emptyEnv exampleUrl None JUndefined))
                _ eq_refl eq_refl)
      as (call & txt & body & envelope & _ & Hnet & Hparse & Hstatus & _).
    change (Responded 200 (lit "OK") emptyEnvelopeText = Responded 200 txt body) in Hnet.
    injection Hnet as _ <-.
    change (Normal emptyEnvelope = Normal envelope) in Hparse.
    injection Hparse as <-. exact Hstatus.
Defined.

(** C2, failing input: a GET answered with status 404. axios rejects it,
    so the status branch of [scrapeWithFetch] is not reached and the
    [catch] block returns no status and the message of the rejection. *)
Theorem scrapeWithFetch_not_found_C2 :
  network notFoundEnv (Get exampleUrl (universalTimeout notFoundEnv))
  = Responded 404 (lit "Not Found") (lit "<html>missing</html>")
  /\ fst (scrapeWithFetch notFoundEnv exampleUrl)
     = Normal {| content := JStr [];
                 pageStatusCode := JNull;
                 pageError := JStr (lit "Request failed with status code 404") |}.
Proof. split; vm_compute; reflexivity. Qed.

(** C8, failing inputs: the microservice answers with outer status 500,
    then 201, and an envelope reporting status 500 and its error. Neither
    field of the envelope reaches the result. *)
Theorem scrapeWithPlaywright_outer_status_C8 :
  getProp failedEnvelope (lit "pageStatusCode") = Normal (JNum 500)
  /\ getProp failedEnvelope (lit "pageError") = Normal (JStr (lit "Internal Server Error"))
  /\ fst (scrapeWithPlaywright (outerStatusEnv 500 (lit "Internal Server Error"))
            exampleUrl None JUndefined)
     = Normal {| content := JStr [];
                 pageStatusCode := JNull;
                 pageError := JStr (lit "Request failed with status code 500") |}
  /\ fst (scrapeWithPlaywright (outerStatusEnv 201 (lit "Created"))
            exampleUrl None JUndefined)
     = Normal {| content := JStr [];
                 pageStatusCode := JUndefined;
                 pageError := JUndefined |}.
Proof. repeat split; vm_compute; reflexivity. Qed.

(** C3, the claim as stated fails: when the provider throws, no request
    is sent and the call returns the failure of the [catch] block, while
    the same page behind a provider that answers is fetched. *)
Lemma provider_fallback_C3_counterexample :
  generateRequestParams brokenProviderEnv exampleUrl = Throw (ErrorObject (lit "boom"))
  /\ fst (scrapeWithPlaywright brokenProviderEnv exampleUrl (Some 500) JUndefined)
     = Normal {| content := JStr [];
                 pageStatusCode := JNull;
                 pageError := JStr (lit "boom") |}
  /\ calls (snd (scrapeWithPlaywright brokenProviderEnv exampleUrl (Some 500) JUndefined))
     = []
  /\ fst (scrapeWithPlaywright pageEnv exampleUrl (Some 500) JUndefined)
     = Normal {| content := JStr (lit "x");
                 pageStatusCode := JNum 200;
                 pageError := JNull |}.
Proof. repeat split; vm_compute; reflexivity. Qed.

(** C3, amended: when the provider returns a value that supplies no wait
    (its [params] is absent, or holds no [wait]), the caller's [waitFor] is
    the effective wait and the POST is sent with it. When the provider
    throws, no request is sent and the call ends in the [catch] block: the
    result has an empty content, no status, and the error of the provider. *)
Theorem provider_fallback_C3 env url waitFor headers :
  (forall reqParams params wait,
      generateRequestParams env url = Normal reqParams ->
      getProp reqParams (lit "params") = Normal params ->
      getPropOpt params (lit "wait") = Normal wait ->
      isNullish wait = true ->
      resolveWait env url waitFor = Normal (JNum (orZero waitFor))
      /\ calls (snd (scrapeWithPlaywright env url waitFor headers))
         = [postCall env url (JNum (orZero waitFor)) headers])
  /\ (forall e,
      generateRequestParams env url = Throw e ->
      calls (snd (scrapeWithPlaywright env url waitFor headers)) = []
      /\ (forall r,
          fst (scrapeWithPlaywright env url waitFor headers) = Normal r ->
          content r = JStr [] /\ pageStatusCode r = JNull)
      /\ (forall code message,
          getProp e (lit "code") = Normal code ->
          strictEqualsStr code (lit "ECONNABORTED") = false ->
          getProp e (lit "message") = Normal message ->
          fst (scrapeWithPlaywright env url waitFor headers)
          = Normal {| content := JStr [];
                      pageStatusCode := JNull;
                      pageError := if toBoolean message then message else e |})).
Proof.
  split.
  - intros rp ps wt H1 H2 H3 Hnull.
    assert (Hw : resolveWait env url waitFor = Normal (JNum (orZero waitFor))).
    { unfold resolveWait, cbind, nullish. rewrite H1, H2, H3, Hnull. reflexivity. }
    split; [exact Hw |]. rewrite scrapeWithPlaywright_calls, Hw. reflexivity.
  - intros e He.
    destruct (scrapeWithPlaywright_provider_throws env url waitFor headers e He)
      as [st0 [Hrun Hcalls]].
    rewrite Hrun. split; [| split].
    + destruct (catchTransport e st0) as [c st'] eqn:Hc. by_catch Hc.
      cbn [snd]. congruence.
    + intros r. destruct (catchTransport e st0) as [c st'] eqn:Hc. by_catch Hc.
      cbn [fst]. intros ->. apply Hr. reflexivity.
    + intros code message. apply catchTransport_other.
Qed.

Lemma provider_fallback_C3_witness :
  calls (snd (scrapeWithPlaywright pageEnv exampleUrl (Some 500) JUndefined))
  = [postCall pageEnv exampleUrl (JNum 500) JUndefined]
  /\ calls (snd (scrapeWithPlaywright brokenProviderEnv exampleUrl (Some 500) JUndefined))
     = [].
Proof.
  split.
  - apply (proj1 (provider_fallback_C3 pageEnv exampleUrl (Some 500) JUndefined)
             (JObj [(lit "url", JStr exampleUrl);
                    (lit "params", JObj [(lit "timeout", JNum 15000)])])
             (JObj [(lit "timeout", JNum 15000)])
             JUndefined);
      reflexivity.
  - apply (proj2 (provider_fallback_C3 brokenProviderEnv exampleUrl (Some 500) JUndefined)
             (ErrorObject (lit "boom"))).
    reflexivity.
Defined.

(** C6: when the HTTP call of either scraper fails at the transport
    level, the result has an empty content and no status; its error is
    ["Request timed out"] for a timeout (the error's code is
    [ECONNABORTED]), and otherwise the message of the underlying error
    (the error itself if it has no message). *)
Theorem transport_failure_C6 env url waitFor headers e code run :
  (run = scrapeWithFetch env url
   /\ network env (Get url (universalTimeout env)) = Failed e)
  \/ (run = scrapeWithPlaywright env url waitFor headers
      /\ exists waitParam,
          resolveWait env url waitFor = Normal waitParam
          /\ network env (postCall env url waitParam headers) = Failed e) ->
  getProp e (lit "code") = Normal code ->
  (strictEqualsStr code (lit "ECONNABORTED") = true ->
   fst run = Normal {| content := JStr [];
                       pageStatusCode := JNull;
                       pageError := JStr (lit "Request timed out") |})
  /\ (strictEqualsStr code (lit "ECONNABORTED") = false ->
      forall message,
        getProp e (lit "message") = Normal message ->
        fst run = Normal {| content := JStr [];
                            pageStatusCode := JNull;
                            pageError := if toBoolean message then message else e |}).
Proof.
  intros Hrun Hcode.
  assert (Hcatch : exists st0, run = catchTransport e st0).
  { destruct Hrun as [[-> Hn] | [-> [wp [Hw Hn]]]].
    - destruct (scrapeWithFetch_rejected env url e) as [st0 [E _]];
        [rewrite Hn; reflexivity | eauto].
    - destruct (scrapeWithPlaywright_rejected env url waitFor headers wp e Hw)
        as [st0 [E _]]; [rewrite Hn; reflexivity | eauto]. }
  destruct Hcatch as [st0 ->]. split.
  - intros Ht. exact (catchTransport_timeout e code st0 Hcode Ht).
  - intros Ht message Hm. exact (catchTransport_other e code message st0 Hcode Ht Hm).
Qed.

Lemma transport_failure_C6_witness :
  fst (scrapeWithFetch timeoutEnv exampleUrl)
  = Normal {| content := JStr [];
              pageStatusCode := JNull;
              pageError := JStr (lit "Request timed out") |}
  /\ fst (scrapeWithPlaywright refusedEnv exampleUrl None JUndefined)
     = Normal {| content := JStr [];
                 pageStatusCode := JNull;
                 pageError := JStr (lit "connect ECONNREFUSED 127.0.0.1:3000") |}.
Proof.
  split.
  - apply (proj1 (transport_failure_C6 timeoutEnv exampleUrl None JUndefined
                    timeoutError (JStr (lit "ECONNABORTED")) _
                    (or_introl (conj eq_refl eq_refl)) eq_refl)).
    reflexivity.
  - apply (proj2 (transport_failure_C6 refusedEnv exampleUrl None JUndefined
                    refusedError (JStr (lit "ECONNREFUSED")) _
                    (or_intror (conj eq_refl
                                  (ex_intro _ (JNum 0) (conj eq_refl eq_refl))))
                    eq_refl)
             eq_refl (JStr (lit "connect ECONNREFUSED 127.0.0.1:3000")) eq_refl).
Defined.

(** Under outer status 200, when the content read from the parsed envelope
    is [null] or [undefined], the classifier answers false, the call takes
    its success path, and the content of the result is the empty string. *)
Lemma scrapeWithPlaywright_null_content
    env url waitFor headers waitParam txt body envelope page :
  resolveWait env url waitFor = Normal waitParam ->
  network env (postCall env url waitParam headers) = Responded 200 txt body ->
  JSON_parse env body = Normal envelope ->
  getProp envelope (lit "content") = Normal page ->
  isNullish page = true ->
  isPDFContent page = Normal false
  /\ success (logParams (snd (scrapeWithPlaywright env url waitFor headers))) = true
  /\ exists r,
      fst (scrapeWithPlaywright env url waitFor headers) = Normal r
      /\ content r = JStr []
      /\ getProp envelope (lit "pageStatusCode") = Normal (pageStatusCode r)
      /\ getProp envelope (lit "pageError") = Normal (pageError r).
Proof.
  intros Hw Hn Hparse Hpage Hnull.
  assert (Hpdf : isPDFContent page = Normal false).
  { apply isPDFContent_not_string. intros s ->. discriminate Hnull. }
  split; [exact Hpdf |].
  apply resolveWait_Normal in Hw. destruct Hw as (rp & ps & wt & H1 & H2 & H3 & ->).
  unfold postCall in Hn.
  destruct (getProp_defined _ _ _ (lit "pageStatusCode") Hpage) as [c Hc].
  destruct (getProp_defined _ _ _ (lit "pageError") Hpage) as [e He].
  expose. rewrite H1, H2, H3, Hn. cbn [settle]. expose.
  change ((200 =? 0) || validateStatus 200) with true. expose.
  cbn [status data negb Z.eqb Pos.eqb]. expose.
  rewrite Hparse, Hpage, Hpdf. expose. rewrite Hc, He. expose.
  split; [reflexivity |].
  eexists. split; [reflexivity |]. fields. unfold nullish. rewrite Hnull. auto.
Qed.

(** Under outer status 200, when the body parses to [null], reading
    [data.content] throws inside the inner [try]: the call returns the
    failure result of the inner [catch], and is not logged as a success. *)
Lemma scrapeWithPlaywright_null_envelope
    env url waitFor headers waitParam txt body envelope :
  resolveWait env url waitFor = Normal waitParam ->
  network env (postCall env url waitParam headers) = Responded 200 txt body ->
  JSON_parse env body = Normal envelope ->
  isNullish envelope = true ->
  success (logParams (snd (scrapeWithPlaywright env url waitFor headers))) = false
  /\ fst (scrapeWithPlaywright env url waitFor headers)
     = Normal {| content := JStr [];
                 pageStatusCode := JNull;
                 pageError :=
                   JStr (lit "Cannot read properties of " ++ describe envelope
                         ++ lit " (reading 'content')") |}.
Proof.
  intros Hw Hn Hparse Hnull.
  apply resolveWait_Normal in Hw. destruct Hw as (rp & ps & wt & H1 & H2 & H3 & ->).
  unfold postCall in Hn.
  expose. rewrite H1, H2, H3, Hn. cbn [settle]. expose.
  change ((200 =? 0) || validateStatus 200) with true. expose.
  cbn [status data negb Z.eqb Pos.eqb]. expose.
  rewrite Hparse.
  destruct envelope; try discriminate Hnull; split; reflexivity.
Qed.

(** C10, as stated, fails on the body [null]: under outer status 200 it
    parses as JSON, to a value that has no content field, yet the call does
    not take its success path. Reading [data.content] throws, and the
    result is that of the inner [catch], with the message of the
    [TypeError]; the call is not logged as a success. *)
Lemma null_content_C10_counterexample :
  network nullEnvelopeEnv (postCall nullEnvelopeEnv exampleUrl (JNum 0) JUndefined)
  = Responded 200 (lit "OK") (lit "null")
  /\ JSON_parse nullEnvelopeEnv (lit "null") = Normal JNull
  /\ success (logParams (snd (scrapeWithPlaywright nullEnvelopeEnv exampleUrl None
                               JUndefined)))
     = false
  /\ fst (scrapeWithPlaywright nullEnvelopeEnv exampleUrl None JUndefined)
     = Normal {| content := JStr [];
                 pageStatusCode := JNull;
                 pageError :=
                   JStr (lit "Cannot read properties of null (reading 'content')") |}.
Proof. repeat split; vm_compute; reflexivity. Qed.

(** C10, amended: under outer status 200, when the body parses to a value
    other than [null], its content can be read, and when that content is
    [null] or missing the classifier answers false, the call takes its
    success path, and the content of the result is the empty string. When
    the body parses to [null] itself, the call takes the failure path of the
    inner [catch] instead: it is not logged as a success, and the result
    has the empty string as content, no status, and the message of the
    [TypeError]. The content is the empty string either way. *)
Theorem null_content_C10 env url waitFor headers waitParam txt body envelope :
  resolveWait env url waitFor = Normal waitParam ->
  network env (postCall env url waitParam headers) = Responded 200 txt body ->
  JSON_parse env body = Normal envelope ->
  (isNullish envelope = false ->
   exists page,
     getProp envelope (lit "content") = Normal page
     /\ (isNullish page = true ->
         isPDFContent page = Normal false
         /\ success (logParams (snd (scrapeWithPlaywright env url waitFor headers))) = true
         /\ exists r,
             fst (scrapeWithPlaywright env url waitFor headers) = Normal r
             /\ content r = JStr []
             /\ getProp envelope (lit "pageStatusCode") = Normal (pageStatusCode r)
             /\ getProp envelope (lit "pageError") = Normal (pageError r)))
  /\ (isNullish envelope = true ->
      success (logParams (snd (scrapeWithPlaywright env url waitFor headers))) = false
      /\ fst (scrapeWithPlaywright env url waitFor headers)
         = Normal {| content := JStr [];
                     pageStatusCode := JNull;
                     pageError :=
                       JStr (lit "Cannot read properties of " ++ describe envelope
                             ++ lit " (reading 'content')") |}).
Proof.
  intros Hw Hn Hparse. split.
  - intros Hdefined.
    assert (Hpage : exists page, getProp envelope (lit "content") = Normal page).
    { destruct envelope; try discriminate Hdefined; eexists; reflexivity. }
    destruct Hpage as [page Hpage]. exists page. split; [exact Hpage |].
    exact (scrapeWithPlaywright_null_content _ _ _ _ _ _ _ _ _ Hw Hn Hparse Hpage).
  - exact (scrapeWithPlaywright_null_envelope _ _ _ _ _ _ _ _ Hw Hn Hparse).
Qed.

Lemma null_content_C10_witness :
  (success (logParams (snd (scrapeWithPlaywright emptyEnv exampleUrl None JUndefined))) = true
   /\ exists r,
       fst (scrapeWithPlaywright emptyEnv exampleUrl None JUndefined) = Normal r
       /\ content r = JStr [])
  /\ success (logParams (snd (scrapeWithPlaywright nullEnvelopeEnv exampleUrl None
                               JUndefined)))
     = false.
Proof.
  split.
  - destruct (proj1 (null_content_C10 emptyEnv exampleUrl None JUndefined (JNum 0)
                       (lit "OK") emptyEnvelopeText emptyEnvelope
                       eq_refl eq_refl eq_refl) eq_refl)
      as (page & Hpage & Hrun).
    injection Hpage as <-.
    destruct (Hrun eq_refl) as (_ & Hs & r & Hr & Hcontent & _).
    split; [exact Hs |]. exists r. split; [exact Hr | exact Hcontent].
  - exact (proj1 (proj2 (null_content_C10 nullEnvelopeEnv exampleUrl None JUndefined
                           (JNum 0) (lit "OK") (lit "null") JNull
                           eq_refl eq_refl eq_refl) eq_refl)).
Defined.

(** * Further properties of the classifier *)

Lemma trimStart_whitespace ws t :
  forallb isWhiteSpace ws = true -> trimStart (ws ++ t) = trimStart t.
Proof.
  induction ws as [| c ws IH]; [reflexivity |].
  cbn [forallb app trimStart]. intros H. apply andb_true_iff in H.
  destruct H as [Hc Hws]. rewrite Hc. exact (IH Hws).
Qed.

(** Trimming at the front stops at the first character that is not white
    space, wherever it is. *)
Lemma trimStart_keep c a b :
  isWhiteSpace c = false -> trimStart (a ++ c :: b) = trimStart a ++ c :: b.
Proof.
  intros Hc. induction a as [| d a IH]; cbn [app trimStart].
  - rewrite Hc. reflexivity.
  - destruct (isWhiteSpace d); [exact IH | reflexivity].
Qed.

Lemma trimEnd_keep q c rest :
  isWhiteSpace c = false -> trimEnd ((q ++ [c]) ++ rest) = (q ++ [c]) ++ trimEnd rest.
Proof.
  intros Hc. unfold trimEnd.
  assert (E : rev ((q ++ [c]) ++ rest) = rev rest ++ c :: rev q).
  { rewrite !rev_app_distr. reflexivity. }
  rewrite E, trimStart_keep by exact Hc.
  rewrite rev_app_distr. cbn [rev]. rewrite rev_involutive. reflexivity.
Qed.

(** X1: a content that begins, after any leading white space, with the
    signature [%PDF-] is classified as a PDF, whatever follows. *)
Theorem isPDFContent_signature_X1 (ws rest : jsstring) :
  forallb isWhiteSpace ws = true ->
  isPDFContent (JStr (ws ++ lit "%PDF-" ++ rest)) = Normal true.
Proof.
  intros Hws. rewrite isPDFContent_string.
  assert (Htrim : trim (ws ++ lit "%PDF-" ++ rest) = lit "%PDF-" ++ trimEnd rest).
  { unfold trim. rewrite trimStart_whitespace by exact Hws.
    change (trimStart (lit "%PDF-" ++ rest)) with ((lit "%PDF" ++ [45]) ++ rest).
    apply (trimEnd_keep (lit "%PDF") 45 rest). reflexivity. }
  rewrite Htrim.
  assert (Hstart : startsWith (lit "%PDF-" ++ trimEnd rest) (lit "%PDF-") = true)
    by (apply startsWith_app; eauto).
  rewrite Hstart.
  destruct (ws ++ lit "%PDF-" ++ rest) eqn:E; [| reflexivity].
  destruct ws; discriminate E.
Qed.

Lemma isPDFContent_signature_X1_witness :
  isPDFContent (JStr ([32; 10; 9] ++ lit "%PDF-" ++ lit "1.7 anything")) = Normal true.
Proof.
  apply (isPDFContent_signature_X1 [32; 10; 9] (lit "1.7 anything")). reflexivity.
Defined.

Lemma includes_inside t a p b :
  includes t (a ++ p ++ b) = true -> includes t p = true.
Proof.
  rewrite !includes_app. intros [x [y ->]].
  exists (x ++ a), (b ++ y). rewrite <- !app_assoc. reflexivity.
Qed.

(** X2: the four-marker rule is a two-marker rule: a content that contains
    [endobj] and [endstream] contains [obj] and [stream] with them, and is
    classified as a PDF. *)
Theorem isPDFContent_two_markers_X2 (s : jsstring) :
  includes s (lit "endobj") = true ->
  includes s (lit "endstream") = true ->
  isPDFContent (JStr s) = Normal true.
Proof.
  intros Hobj Hstream.
  assert (Hall : hasAllMarkers s = true).
  { unfold hasAllMarkers. rewrite Hobj, Hstream.
    rewrite (includes_inside s (lit "end") (lit "obj") []) by exact Hobj.
    rewrite (includes_inside s (lit "end") (lit "stream") []) by exact Hstream.
    reflexivity. }
  rewrite isPDFContent_string, hasAllMarkers_trim, Hall, orb_true_r.
  destruct s; [discriminate Hobj | reflexivity].
Qed.

Lemma isPDFContent_two_markers_X2_witness :
  isPDFContent (JStr (lit "<p>endstream, then endobj</p>")) = Normal true.
Proof.
  apply (isPDFContent_two_markers_X2 (lit "<p>endstream, then endobj</p>"));
    reflexivity.
Defined.

(** With no match of the character class the quotient is 0 (or [NaN]), which
    does not exceed 0.1. *)
Lemma ratioAboveTenth_zero t : ratioAboveTenth 0 t = false.
Proof.
  unfold ratioAboveTenth.
  rewrite FloatAxioms.ltb_spec, FloatAxioms.div_spec.
  change (Prim2SF (numberOfNat 0)) with (S754_zero false).
  destruct (Prim2SF (numberOfNat t)) as [sy | sy | | sy my ey]; reflexivity.
Qed.

Lemma filter_none {A} (f : A -> bool) l :
  forallb (fun x => negb (f x)) l = true -> filter f l = [].
Proof.
  induction l as [| x l IH]; [reflexivity |].
  cbn [forallb filter]. intros H. apply andb_true_iff in H. destruct H as [Hx Hl].
  apply negb_true_iff in Hx. rewrite Hx. exact (IH Hl).
Qed.

(** X3: a text of any length without a single character of the
    non-printable class is classified as not binary, unless it starts with
    the signature once trimmed or contains all four markers. *)
Theorem isPDFContent_printable_X3 (s : jsstring) :
  forallb (fun c => negb (isNonPrintable c)) s = true ->
  startsWith (trim s) (lit "%PDF-") = false ->
  ~ (forall m, In m markers -> includes s m = true) ->
  isPDFContent (JStr s) = Normal false.
Proof.
  intros Hprint Hhead Hmark. rewrite isPDFContent_string.
  destruct s as [| c s]; [reflexivity |].
  rewrite Hhead, hasAllMarkers_trim.
  destruct (hasAllMarkers (c :: s)) eqn:E.
  - exfalso. apply Hmark. apply hasAllMarkers_forall. exact E.
  - unfold nonPrintableRule, matchNonPrintable.
    rewrite (filter_none isNonPrintable (c :: s) Hprint).
    cbn [orEmpty List.length]. rewrite ratioAboveTenth_zero, andb_false_r.
    reflexivity.
Qed.

(** Three hundred letters. *)
Lemma isPDFContent_printable_X3_witness :
  isPDFContent (JStr (repeat 97 300)) = Normal false.
Proof.
  apply (isPDFContent_printable_X3 (repeat 97 300)).
  - vm_compute. reflexivity.
  - vm_compute. reflexivity.
  - intros H. specialize (H (lit "obj") (or_introl eq_refl)).
    vm_compute in H. discriminate H.
Defined.

(** * Further properties of the scrapers *)

(** Enter the branch of [scrapeWithPlaywright] under outer status 200. *)
Ltac enter_200 Hw Hn :=
  let rp := fresh "rp" in
  let ps := fresh "ps" in
  let wt := fresh "wt" in
  let H1 := fresh "H" in
  let H2 := fresh "H" in
  let H3 := fresh "H" in
  apply resolveWait_Normal in Hw;
  destruct Hw as (rp & ps & wt & H1 & H2 & H3 & ->);
  unfold postCall in Hn;
  expose; rewrite H1, H2, H3, Hn; cbn [settle]; expose;
  change ((200 =? 0) || validateStatus 200) with true; expose;
  cbn [status data negb Z.eqb Pos.eqb]; expose.

(** X4: under status 200, a body the classifier lets through is returned as
    it is, untrimmed, with status 200 and no error; the call is logged as a
    success with that body. *)
Theorem scrapeWithFetch_body_X4 env url txt body :
  network env (Get url (universalTimeout env)) = Responded 200 txt body ->
  isPDFContent (JStr body) = Normal false ->
  fst (scrapeWithFetch env url)
  = Normal {| content := JStr body; pageStatusCode := JNum 200; pageError := JNull |}
  /\ success (logParams (snd (scrapeWithFetch env url))) = true
  /\ html (logParams (snd (scrapeWithFetch env url))) = JStr body.
Proof.
  intros Hn Hpdf. expose. rewrite Hn. cbn [settle]. expose.
  change ((200 =? 0) || validateStatus 200) with true. expose.
  cbn [status data negb Z.eqb Pos.eqb]. expose. rewrite Hpdf. expose.
  repeat split.
Qed.

Lemma scrapeWithFetch_body_X4_witness :
  fst (scrapeWithFetch htmlEnv exampleUrl)
  = Normal {| content := JStr (lit "<html>hi</html>");
              pageStatusCode := JNum 200;
              pageError := JNull |}.
Proof.
  apply (scrapeWithFetch_body_X4 htmlEnv exampleUrl (lit "OK") (lit "<html>hi</html>"));
    reflexivity.
Defined.

(** X5: under status 200, a body the classifier takes for a PDF is
    withheld: the content is empty, the status 200, and the error the fixed
    PDF message; the call is not logged as a success. *)
Theorem scrapeWithFetch_pdf_X5 env url txt body :
  network env (Get url (universalTimeout env)) = Responded 200 txt body ->
  isPDFContent (JStr body) = Normal true ->
  fst (scrapeWithFetch env url)
  = Normal {| content := JStr []; pageStatusCode := JNum 200; pageError := JStr pdfDetected |}
  /\ success (logParams (snd (scrapeWithFetch env url))) = false.
Proof.
  intros Hn Hpdf. expose. rewrite Hn. cbn [settle]. expose.
  change ((200 =? 0) || validateStatus 200) with true. expose.
  cbn [status data negb Z.eqb Pos.eqb]. expose. rewrite Hpdf. expose.
  split; reflexivity.
Qed.

Lemma scrapeWithFetch_pdf_X5_witness :
  fst (scrapeWithFetch pdfEnv exampleUrl)
  = Normal {| content := JStr []; pageStatusCode := JNum 200; pageError := JStr pdfDetected |}.
Proof.
  apply (scrapeWithFetch_pdf_X5 pdfEnv exampleUrl (lit "OK") (lit "  %PDF-1.4 binary"));
    reflexivity.
Defined.

Lemma scrapeWithFetch_calls env url :
  calls (snd (scrapeWithFetch env url)) = [Get url (universalTimeout env)].
Proof.
  destruct (scrapeWithFetch env url) as [c st] eqn:Hrun. cbn [snd]. revert Hrun.
  run_cases.
  all: try (intros H; by_catch H; exact Hc).
  all: intros [= <- <-]; reflexivity.
Qed.

(** X6: neither scraper retries. [scrapeWithFetch] sends exactly one GET,
    to the given URL with the base timeout; [scrapeWithPlaywright] sends at
    most one POST, for the given URL and headers, whose timeout is the base
    timeout plus the very wait it is sent with. *)
Theorem single_request_X6 env url waitFor headers :
  calls (snd (scrapeWithFetch env url)) = [Get url (universalTimeout env)]
  /\ (calls (snd (scrapeWithPlaywright env url waitFor headers)) = []
      \/ exists waitParam,
          calls (snd (scrapeWithPlaywright env url waitFor headers))
          = [Post (PLAYWRIGHT_MICROSERVICE_URL env) url waitParam headers
                  (universalTimeout env, waitParam)]).
Proof.
  split; [apply scrapeWithFetch_calls |].
  rewrite scrapeWithPlaywright_calls.
  destruct (resolveWait env url waitFor) as [wp | e]; [right | left; reflexivity].
  exists wp. reflexivity.
Qed.




Lemma TypeError_not_nullish message : isNullish (TypeError message) = false.
Proof. reflexivity. Qed.






Ltac fields_in H :=
  cbn [content pageStatusCode pageError success logParams calls app
       set_success set_response_code set_error_message set_html
       response_code error_message html] in H.

Lemma catchTransport_log e st r st' :
  catchTransport e st = (Normal r, st') ->
  error_message (logParams st') = pageError r
  /\ response_code (logParams st') = response_code (logParams st)
  /\ pageStatusCode r = JNull.
Proof.
  unfold catchTransport, bind, liftC, modifyLog, getLog, ret.
  destruct (getProp e (lit "code")) as [code | t]; [| discriminate].
  destruct (strictEqualsStr code (lit "ECONNABORTED")).
  - intros [= <- <-]. repeat split.
  - destruct (getProp e (lit "message")) as [m | t]; [| discriminate].
    intros [= <- <-]. repeat split.
Qed.

(** X9: the log record a call leaves agrees with the result it returns:
    [error_message] is the result's [pageError] and [response_code] its
    [pageStatusCode], on every return of either scraper. *)
Theorem log_matches_result_X9 env url waitFor headers :
  (forall r,
      fst (scrapeWithFetch env url) = Normal r ->
      error_message (logParams (snd (scrapeWithFetch env url))) = pageError r
      /\ response_code (logParams (snd (scrapeWithFetch env url))) = pageStatusCode r)
  /\ (forall r,
      fst (scrapeWithPlaywright env url waitFor headers) = Normal r ->
      error_message (logParams (snd (scrapeWithPlaywright env url waitFor headers)))
      = pageError r
      /\ response_code (logParams (snd (scrapeWithPlaywright env url waitFor headers)))
         = pageStatusCode r).
Proof.
  split; intros r.
  - destruct (scrapeWithFetch env url) as [c st] eqn:Hrun. cbn [fst snd].
    intros ->. revert Hrun. run_cases.
    all: try (intros H; apply catchTransport_log in H; fields_in H;
              destruct H as (He & Hc & ->); rewrite Hc; auto).
    all: intros [= <- <-]; fields; auto.
  - destruct (scrapeWithPlaywright env url waitFor headers) as [c st] eqn:Hrun.
    cbn [fst snd]. intros ->. revert Hrun. run_cases.
    all: try (intros H; apply catchTransport_log in H; fields_in H;
              destruct H as (He & Hc & ->); rewrite Hc; auto).
    all: intros [= <- <-]; fields; auto.
Qed.

Lemma log_matches_result_X9_witness :
  error_message (logParams (snd (scrapeWithFetch notFoundEnv exampleUrl)))
  = JStr (lit "Request failed with status code 404")
  /\ response_code (logParams (snd (scrapeWithPlaywright pdfEnvelopeEnv exampleUrl None JUndefined)))
     = JNum 206.
Proof.
  split.
  - apply (proj1 (proj1 (log_matches_result_X9 notFoundEnv exampleUrl None JUndefined)
                    _ eq_refl)).
  - apply (proj2 (proj2 (log_matches_result_X9 pdfEnvelopeEnv exampleUrl None JUndefined)
                    _ eq_refl)).
Defined.

(** X10: under outer status 200, a body [JSON.parse] rejects gives the
    failure result with no status and the message of the parse error (the
    error itself if it has no message); the call is not logged as a
    success. *)
Theorem scrapeWithPlaywright_parse_error_X10
    env url waitFor headers waitParam txt body e message :
  resolveWait env url waitFor = Normal waitParam ->
  network env (postCall env url waitParam headers) = Responded 200 txt body ->
  JSON_parse env body = Throw e ->
  getProp e (lit "message") = Normal message ->
  fst (scrapeWithPlaywright env url waitFor headers)
  = Normal {| content := JStr [];
              pageStatusCode := JNull;
              pageError := if toBoolean message then message else e |}
  /\ success (logParams (snd (scrapeWithPlaywright env url waitFor headers))) = false.
Proof.
  intros Hw Hn Hparse Hm. enter_200 Hw Hn. rewrite Hparse. expose. rewrite Hm. expose.
  split; reflexivity.
Qed.

Lemma scrapeWithPlaywright_parse_error_X10_witness :
  fst (scrapeWithPlaywright htmlBodyEnv exampleUrl None JUndefined)
  = Normal {| content := JStr [];
              pageStatusCode := JNull;
              pageError := JStr (lit "Unexpected token < in JSON at position 0") |}.
Proof.
  apply (scrapeWithPlaywright_parse_error_X10 htmlBodyEnv exampleUrl None JUndefined
           (JNum 0) (lit "OK") (lit "<html>oops</html>")
           (SyntaxErrorObject (lit "Unexpected token < in JSON at position 0"))
           (JStr (lit "Unexpected token < in JSON at position 0")));
    reflexivity.
Defined.

(** X11: under outer status 200, when the classifier takes the content of
    the envelope for a PDF the content is withheld: the result keeps the
    status of the envelope, and the fixed PDF message replaces whatever error
    the envelope carried. *)
Theorem scrapeWithPlaywright_pdf_X11
    env url waitFor headers waitParam txt body envelope page :
  resolveWait env url waitFor = Normal waitParam ->
  network env (postCall env url waitParam headers) = Responded 200 txt body ->
  JSON_parse env body = Normal envelope ->
  getProp envelope (lit "content") = Normal page ->
  isPDFContent page = Normal true ->
  exists code,
    getProp envelope (lit "pageStatusCode") = Normal code
    /\ fst (scrapeWithPlaywright env url waitFor headers)
       = Normal {| content := JStr []; pageStatusCode := code; pageError := JStr pdfDetected |}
    /\ success (logParams (snd (scrapeWithPlaywright env url waitFor headers))) = false.
Proof.
  intros Hw Hn Hparse Hpage Hpdf.
  destruct (getProp_defined _ _ _ (lit "pageStatusCode") Hpage) as [c Hc].
  exists c. split; [exact Hc |].
  enter_200 Hw Hn. rewrite Hparse, Hpage, Hpdf. expose. rewrite Hc. expose.
  split; reflexivity.
Qed.

Lemma scrapeWithPlaywright_pdf_X11_witness :
  fst (scrapeWithPlaywright pdfEnvelopeEnv exampleUrl None JUndefined)
  = Normal {| content := JStr []; pageStatusCode := JNum 206; pageError := JStr pdfDetected |}.
Proof.
  destruct (scrapeWithPlaywright_pdf_X11 pdfEnvelopeEnv exampleUrl None JUndefined
              (JNum 0) (lit "OK") pdfEnvelopeText pdfEnvelope (JStr (lit "%PDF-1.7 x"))
              eq_refl eq_refl eq_refl eq_refl eq_refl)
    as (code & Hcode & Hrun & _).
  change (Normal (JNum 206) = Normal code) in Hcode. injection Hcode as <-.
  exact Hrun.
Defined.

(** X12: under outer status 200, a content that is present and that the
    classifier lets through is returned as it is, whatever its type: a
    content that is not a string is never taken for a PDF and is not
    converted. *)
Theorem scrapeWithPlaywright_content_X12
    env url waitFor headers waitParam txt body envelope page :
  resolveWait env url waitFor = Normal waitParam ->
  network env (postCall env url waitParam headers) = Responded 200 txt body ->
  JSON_parse env body = Normal envelope ->
  getProp envelope (lit "content") = Normal page ->
  isNullish page = false ->
  ((forall s, page <> JStr s) \/ isPDFContent page = Normal false) ->
  success (logParams (snd (scrapeWithPlaywright env url waitFor headers))) = true
  /\ exists r,
      fst (scrapeWithPlaywright env url waitFor headers) = Normal r
      /\ content r = page.
Proof.
  intros Hw Hn Hparse Hpage Hnull Hok.
  assert (Hpdf : isPDFContent page = Normal false)
    by (destruct Hok as [Hns | Hf]; [apply isPDFContent_not_string; exact Hns | exact Hf]).
  destruct (getProp_defined _ _ _ (lit "pageStatusCode") Hpage) as [c Hc].
  destruct (getProp_defined _ _ _ (lit "pageError") Hpage) as [e He].
  enter_200 Hw Hn. rewrite Hparse, Hpage, Hpdf. expose. rewrite Hc, He. expose.
  split; [reflexivity |]. eexists. split; [reflexivity |].
  fields. unfold nullish. rewrite Hnull. reflexivity.
Qed.

Lemma scrapeWithPlaywright_content_X12_witness :
  exists r,
    fst (scrapeWithPlaywright numberEnvelopeEnv exampleUrl None JUndefined) = Normal r
    /\ content r = JNum 42.
Proof.
  apply (proj2 (scrapeWithPlaywright_content_X12 numberEnvelopeEnv exampleUrl None JUndefined
                  (JNum 0) (lit "OK") numberEnvelopeText numberEnvelope (JNum 42)
                  eq_refl eq_refl eq_refl eq_refl eq_refl
                  (or_intror eq_refl))).
Defined.

Lemma validateStatus_false st : st < 200 \/ 300 <= st -> validateStatus st = false.
Proof.
  intros H. unfold validateStatus. apply andb_false_iff.
  destruct H; [left; apply Z.leb_gt | right; apply Z.ltb_ge]; lia.
Qed.

Lemma validateStatus_true st : 200 <= st < 300 -> validateStatus st = true.
Proof.
  intros H. unfold validateStatus. apply andb_true_iff.
  split; [apply Z.leb_le | apply Z.ltb_lt]; lia.
Qed.

(** What the [catch] block makes of the rejection axios raises for a
    status. *)
Lemma catchTransport_status st st0 :
  fst (catchTransport
         (AxiosError (lit "Request failed with status code " ++ decimal st)
                     (statusErrorCode st)) st0)
  = Normal {| content := JStr [];
              pageStatusCode := JNull;
              pageError := JStr (lit "Request failed with status code " ++ decimal st) |}.
Proof.
  assert (Hcode : strictEqualsStr (statusErrorCode st) (lit "ECONNABORTED") = false).
  { unfold statusErrorCode. destruct (st / 100 - 4) as [| [| |] |]; reflexivity. }
  rewrite (catchTransport_other _ (statusErrorCode st)
             (JStr (lit "Request failed with status code " ++ decimal st)) st0);
    [reflexivity | reflexivity | exact Hcode | reflexivity].
Qed.

(** X13: a response whose status lies outside 200-299 never reaches the
    status check of either scraper: axios rejects it, and the call returns
    an empty content, no status, and the message of the rejection, which
    names the status. *)
Theorem rejected_status_X13 env url waitFor headers st txt body run :
  st <> 0 -> st < 200 \/ 300 <= st ->
  (run = scrapeWithFetch env url
   /\ network env (Get url (universalTimeout env)) = Responded st txt body)
  \/ (run = scrapeWithPlaywright env url waitFor headers
      /\ exists waitParam,
          resolveWait env url waitFor = Normal waitParam
          /\ network env (postCall env url waitParam headers) = Responded st txt body) ->
  fst run
  = Normal {| content := JStr [];
              pageStatusCode := JNull;
              pageError := JStr (lit "Request failed with status code " ++ decimal st) |}.
Proof.
  intros H0 Hrange Hrun.
  pose proof (settle_rejected st txt body H0 (validateStatus_false st Hrange)) as Hs.
  destruct Hrun as [[-> Hn] | [-> [wp [Hw Hn]]]].
  - rewrite <- Hn in Hs.
    destruct (scrapeWithFetch_rejected env url _ Hs) as [st0 [-> _]].
    apply catchTransport_status.
  - rewrite <- Hn in Hs.
    destruct (scrapeWithPlaywright_rejected env url waitFor headers wp _ Hw Hs)
      as [st0 [-> _]].
    apply catchTransport_status.
Qed.

Lemma rejected_status_X13_witness :
  fst (scrapeWithFetch serverErrorEnv exampleUrl)
  = Normal {| content := JStr [];
              pageStatusCode := JNull;
              pageError := JStr (lit "Request failed with status code 503") |}.
Proof.
  apply (rejected_status_X13 serverErrorEnv exampleUrl None JUndefined 503
           (lit "Service Unavailable") (lit "<html>down</html>")).
  - lia.
  - lia.
  - left. split; reflexivity.
Defined.

(** X14: when the GET is answered with a 2xx status other than 200,
    [scrapeWithFetch] returns the status and its reason phrase with an
    empty content: the body is discarded without being looked at, and the
    call is not logged as a success. *)
Theorem scrapeWithFetch_other_2xx_X14 env url st txt body :
  network env (Get url (universalTimeout env)) = Responded st txt body ->
  200 < st < 300 ->
  fst (scrapeWithFetch env url)
  = Normal {| content := JStr []; pageStatusCode := JNum st; pageError := JStr txt |}
  /\ success (logParams (snd (scrapeWithFetch env url))) = false.
Proof.
  intros Hn Hst. expose. rewrite Hn. cbn [settle].
  rewrite validateStatus_true, orb_true_r by lia. expose. cbn [status statusText].
  destruct (Z.eqb_spec st 200); [lia |]. cbn [negb]. expose.
  split; reflexivity.
Qed.

Lemma scrapeWithFetch_other_2xx_X14_witness :
  fst (scrapeWithFetch noContentEnv exampleUrl)
  = Normal {| content := JStr [];
              pageStatusCode := JNum 204;
              pageError := JStr (lit "No Content") |}.
Proof.
  apply (scrapeWithFetch_other_2xx_X14 noContentEnv exampleUrl 204 (lit "No Content") []).
  - reflexivity.
  - lia.
Defined.

(** X15: when the POST is answered with a 2xx status other than 200,
    [scrapeWithPlaywright] returns an empty content with [undefined] for
    both the status and the error, whatever the body holds: the body is
    text at that point and is never parsed. *)
Theorem scrapeWithPlaywright_other_2xx_X15 env url waitFor headers waitParam st txt body :
  resolveWait env url waitFor = Normal waitParam ->
  network env (postCall env url waitParam headers) = Responded st txt body ->
  200 < st < 300 ->
  fst (scrapeWithPlaywright env url waitFor headers)
  = Normal {| content := JStr []; pageStatusCode := JUndefined; pageError := JUndefined |}
  /\ success (logParams (snd (scrapeWithPlaywright env url waitFor headers))) = false.
Proof.
  intros Hw Hn Hst. apply resolveWait_Normal in Hw.
  destruct Hw as (rp & ps & wt & H1 & H2 & H3 & ->). unfold postCall in Hn.
  expose. rewrite H1, H2, H3, Hn. cbn [settle].
  rewrite validateStatus_true, orb_true_r by lia. expose. cbn [status data].
  destruct (Z.eqb_spec st 200); [lia |]. cbn [negb]. expose.
  rewrite !getPropOpt_text. expose. split; reflexivity.
Qed.

Lemma scrapeWithPlaywright_other_2xx_X15_witness :
  fst (scrapeWithPlaywright (outerStatusEnv 202 (lit "Accepted")) exampleUrl None JUndefined)
  = Normal {| content := JStr []; pageStatusCode := JUndefined; pageError := JUndefined |}.
Proof.
  apply (scrapeWithPlaywright_other_2xx_X15 (outerStatusEnv 202 (lit "Accepted"))
           exampleUrl None JUndefined (JNum 0) 202 (lit "Accepted") failedEnvelopeText).
  - reflexivity.
  - reflexivity.
  - lia.
Defined.

(** * The logger *)

Lemma str_eqb_eq a : forall b, str_eqb a b = true <-> a = b.
Proof.
  induction a as [| x a IH]; intros [| y b]; simpl; try (split; [discriminate | discriminate]).
  - split; reflexivity.
  - rewrite andb_true_iff, Z.eqb_eq, IH. split.
    + intros [-> ->]. reflexivity.
    + intros [= -> ->]. split; reflexivity.
Qed.

Lemma str_eqb_refl a : str_eqb a a = true.
Proof. apply str_eqb_eq. reflexivity. Qed.

Lemma str_eqb_neq a b : a <> b -> str_eqb a b = false.
Proof.
  intros H. destruct (str_eqb a b) eqn:E; [| reflexivity].
  apply str_eqb_eq in E. contradiction.
Qed.

Lemma hasOwn_deleteProp name k props :
  hasOwn name (deleteProp k props) = negb (str_eqb k name) && hasOwn name props.
Proof.
  induction props as [| [k' v] props IH]; [rewrite andb_false_r; reflexivity |].
  unfold deleteProp, hasOwn in *. cbn [filter existsb fst].
  destruct (str_eqb k' k) eqn:Ek; cbn [negb existsb fst].
  - rewrite IH. apply str_eqb_eq in Ek. subst k'.
    destruct (str_eqb k name); reflexivity.
  - rewrite IH. destruct (str_eqb k' name) eqn:En; [| reflexivity].
    apply str_eqb_eq in En. subst k'.
    destruct (str_eqb k name) eqn:E; [| reflexivity].
    apply str_eqb_eq in E. subst k. rewrite str_eqb_refl in Ek. discriminate Ek.
Qed.

Lemma lookup_deleteProp name k props :
  lookup name (deleteProp k props)
  = if str_eqb k name then JUndefined else lookup name props.
Proof.
  induction props as [| [k' v] props IH]; [destruct (str_eqb k name); reflexivity |].
  unfold deleteProp in *. cbn [filter lookup fst].
  destruct (str_eqb k' k) eqn:Ek; cbn [negb lookup].
  - rewrite IH. apply str_eqb_eq in Ek. subst k'.
    destruct (str_eqb k name); reflexivity.
  - rewrite IH. destruct (str_eqb k' name) eqn:En; [| reflexivity].
    apply str_eqb_eq in En. subst k'.
    destruct (str_eqb k name) eqn:E; [| reflexivity].
    apply str_eqb_eq in E. subst k. rewrite str_eqb_refl in Ek. discriminate Ek.
Qed.

Lemma lookup_not_own name props : hasOwn name props = false -> lookup name props = JUndefined.
Proof.
  induction props as [| [k v] props IH]; [reflexivity |].
  unfold hasOwn in *. cbn [existsb lookup fst].
  destruct (str_eqb k name); [discriminate | exact IH].
Qed.

(** X16: on an entry flagged [zeroDataRetention], the filter leaves none of
    the keys [zeroDataRetention], [apiKey], [teamId], [userId] and leaves
    every other property as it was. *)
Theorem zeroDataRetention_strips_X16 (info : Props) :
  toBoolean (lookup (lit "zeroDataRetention") info) = true ->
  forall name,
    (In name sensitiveKeys -> hasOwn name (zeroDataRetentionFilter info) = false)
    /\ (~ In name sensitiveKeys ->
        hasOwn name (zeroDataRetentionFilter info) = hasOwn name info
        /\ lookup name (zeroDataRetentionFilter info) = lookup name info).
Proof.
  intros Hflag name. unfold zeroDataRetentionFilter. rewrite Hflag. cbv zeta.
  rewrite !hasOwn_deleteProp, !lookup_deleteProp. split.
  - intros [<- | [<- | [<- | [<- | []]]]]; rewrite str_eqb_refl;
      cbn [negb andb]; rewrite ?andb_false_r; reflexivity.
  - intros Hout.
    assert (H1 : str_eqb (lit "zeroDataRetention") name = false)
      by (apply str_eqb_neq; intros <-; apply Hout; simpl; auto).
    assert (H2 : str_eqb (lit "apiKey") name = false)
      by (apply str_eqb_neq; intros <-; apply Hout; simpl; auto).
    assert (H3 : str_eqb (lit "teamId") name = false)
      by (apply str_eqb_neq; intros <-; apply Hout; simpl; auto).
    assert (H4 : str_eqb (lit "userId") name = false)
      by (apply str_eqb_neq; intros <-; apply Hout; simpl; auto).
    rewrite H1, H2, H3, H4. split; reflexivity.
Qed.

Lemma zeroDataRetention_strips_X16_witness :
  hasOwn (lit "apiKey") (zeroDataRetentionFilter retainedInfo) = false
  /\ lookup (lit "jobId") (zeroDataRetentionFilter retainedInfo) = JStr (lit "j9").
Proof.
  split.
  - apply (proj1 (zeroDataRetention_strips_X16 retainedInfo eq_refl (lit "apiKey"))).
    simpl. auto.
  - refine (proj2 (proj2 (zeroDataRetention_strips_X16 retainedInfo eq_refl (lit "jobId")) _)).
    intros [E | [E | [E | [E | []]]]]; discriminate E.
Defined.

(** X17: filtering twice is filtering once: a filtered entry no longer
    carries the flag, so a second pass leaves it alone. *)
Theorem zeroDataRetention_idempotent_X17 (info : Props) :
  zeroDataRetentionFilter (zeroDataRetentionFilter info) = zeroDataRetentionFilter info.
Proof.
  unfold zeroDataRetentionFilter at 2 3.
  destruct (toBoolean (lookup (lit "zeroDataRetention") info)) eqn:Hflag; cbv zeta.
  - unfold zeroDataRetentionFilter. rewrite !lookup_deleteProp, str_eqb_refl.
    change (str_eqb (lit "apiKey") (lit "zeroDataRetention")) with false.
    change (str_eqb (lit "teamId") (lit "zeroDataRetention")) with false.
    change (str_eqb (lit "userId") (lit "zeroDataRetention")) with false.
    reflexivity.
  - unfold zeroDataRetentionFilter. rewrite Hflag. reflexivity.
Qed.

Lemma hasOwn_meta name info :
  hasOwn name (deleteProp (lit "message") (deleteProp (lit "level")
                 (deleteProp (lit "timestamp") info)))
  = negb (str_eqb (lit "message") name) && negb (str_eqb (lit "level") name)
    && negb (str_eqb (lit "timestamp") name) && hasOwn name info.
Proof. rewrite !hasOwn_deleteProp, !andb_assoc. reflexivity. Qed.

Lemma headKeys_cases name :
  In name headKeys
  \/ (str_eqb (lit "message") name = false /\ str_eqb (lit "level") name = false
      /\ str_eqb (lit "timestamp") name = false).
Proof.
  destruct (str_eqb (lit "message") name) eqn:E1;
    [left; apply str_eqb_eq in E1; subst; simpl; auto |].
  destruct (str_eqb (lit "level") name) eqn:E2;
    [left; apply str_eqb_eq in E2; subst; simpl; auto |].
  destruct (str_eqb (lit "timestamp") name) eqn:E3;
    [left; apply str_eqb_eq in E3; subst; simpl; auto |].
  right. auto.
Qed.

(** X18: a console line is [timestamp [level]: message]. It ends there when
    the entry has no other property; otherwise one space and the JSON of the
    other properties follow, and that JSON object never repeats
    [timestamp], [level] or [message]. *)
Theorem logFormat_line_X18 (JSON_stringify : JSValue -> jsstring) (info : Props) :
  ((forall name, hasOwn name info = true -> In name headKeys) ->
   logFormat JSON_stringify info = logHead info)
  /\ (forall extra,
      hasOwn extra info = true -> ~ In extra headKeys ->
      exists meta,
        logFormat JSON_stringify info
        = logHead info ++ lit " " ++ JSON_stringify (JObj meta)
        /\ (forall name, In name headKeys -> hasOwn name meta = false)
        /\ (forall name, ~ In name headKeys -> lookup name meta = lookup name info)).
Proof.
  unfold logFormat, logHead. cbv zeta.
  set (meta := deleteProp (lit "message") (deleteProp (lit "level")
                 (deleteProp (lit "timestamp") info))).
  split.
  - intros Honly. destruct meta as [| [k v] rest] eqn:E.
    + rewrite <- !app_assoc. reflexivity.
    + exfalso.
      assert (Hk : hasOwn k meta = true)
        by (rewrite E; unfold hasOwn; cbn [existsb fst]; rewrite str_eqb_refl; reflexivity).
      unfold meta in Hk. rewrite hasOwn_meta in Hk.
      apply andb_true_iff in Hk. destruct Hk as [Hk Hown].
      destruct (headKeys_cases k) as [Hin | (E1 & E2 & E3)].
      * destruct Hin as [<- | [<- | [<- | []]]]; discriminate Hk.
      * specialize (Honly k Hown). destruct Honly as [<- | [<- | [<- | []]]];
          [discriminate E3 | discriminate E2 | discriminate E1].
  - intros extra Hown Hout. exists meta.
    assert (Hmeta : hasOwn extra meta = true).
    { unfold meta. rewrite hasOwn_meta, Hown.
      destruct (headKeys_cases extra) as [Hin | (E1 & E2 & E3)]; [contradiction |].
      rewrite E1, E2, E3. reflexivity. }
    split; [| split].
    + destruct meta as [| kv rest]; [discriminate Hmeta |].
      cbn [List.length Nat.ltb Nat.leb]. rewrite <- !app_assoc. reflexivity.
    + intros name Hin. unfold meta. rewrite hasOwn_meta.
      destruct Hin as [<- | [<- | [<- | []]]]; rewrite str_eqb_refl;
        cbn [negb andb]; rewrite ?andb_false_r; reflexivity.
    + intros name Hname. unfold meta. rewrite !lookup_deleteProp.
      destruct (headKeys_cases name) as [Hin | (E1 & E2 & E3)]; [contradiction |].
      rewrite E1, E2, E3. reflexivity.
Qed.

Lemma logFormat_line_X18_witness :
  logFormat (fun _ => lit "{}") plainInfo = lit "2024-01-01 00:00:00 [info]: ready".
Proof.
  apply (proj1 (logFormat_line_X18 (fun _ => lit "{}") plainInfo)).
  intros name H. unfold hasOwn, plainInfo in H. cbn [existsb fst] in H.
  apply orb_true_iff in H. destruct H as [H | H];
    [apply str_eqb_eq in H; subst; simpl; auto |].
  apply orb_true_iff in H. destruct H as [H | H];
    [apply str_eqb_eq in H; subst; simpl; auto |].
  apply orb_true_iff in H. destruct H as [H | H];
    [apply str_eqb_eq in H; subst; simpl; auto | discriminate H].
Defined.

Lemma existsb_str_In key names : existsb (str_eqb key) names = true <-> In key names.
Proof.
  rewrite existsb_exists. split.
  - intros [x [Hin Hx]]. apply str_eqb_eq in Hx. subst x. exact Hin.
  - intros Hin. exists key. split; [exact Hin | apply str_eqb_refl].
Qed.


Lemma find_level_none key :
  (forall level, levelName level <> key) ->
  find (fun l => str_eqb (levelName l) key) levels = None.
Proof.
  intros H. unfold levels. cbn [find].
  rewrite (str_eqb_neq _ _ (H NONE)), (str_eqb_neq _ _ (H ERROR)),
    (str_eqb_neq _ _ (H WARN)), (str_eqb_neq _ _ (H INFO)),
    (str_eqb_neq _ _ (H DEBUG)), (str_eqb_neq _ _ (H TRACE)).
  reflexivity.
Qed.

Lemma memberOf_inherited s : In s objectPrototypeNames -> memberOf (Some s) = Inherited.
Proof.
  intros Hin. unfold memberOf.
  rewrite (proj2 (existsb_str_In s objectPrototypeNames) Hin).
  rewrite find_level_none; [reflexivity |].
  intros level E. subst s. unfold objectPrototypeNames in Hin.
  destruct level; cbn [In] in Hin;
    repeat (destruct Hin as [Hin | Hin]; [discriminate Hin |]); exact Hin.
Qed.

Lemma memberOf_missing env :
  (forall level, env <> Some (levelName level)) ->
  (forall s, env = Some s -> ~ In s objectPrototypeNames) ->
  memberOf env = Missing.
Proof.
  intros Hlevel Hproto. destruct env as [s |].
  - unfold memberOf. rewrite find_level_none by (intros level E; apply (Hlevel level); congruence).
    destruct (existsb (str_eqb s) objectPrototypeNames) eqn:E; [| reflexivity].
    apply existsb_str_In in E. exfalso. exact (Hproto s eq_refl E).
  - reflexivity.
Qed.

(** X19: when [LOGGING_LEVEL] is unset, or is set to anything but the exact
    upper-case name of a level (or a name inherited from
    [Object.prototype]), the logger works at level INFO: [error], [warn]
    and [info] hand their message to winston, under the lower-case level
    name and with the metadata given (an empty object if none), and
    [debug] and [trace] hand over nothing. *)
Theorem Logger_default_level_X19 env message metadata :
  (forall level, env <> Some (levelName level)) ->
  (forall s, env = Some s -> ~ In s objectPrototypeNames) ->
  let meta := match metadata with Some m => m | None => [] end in
  Logger_error env message metadata
  = [{| winstonLevel := lit "error"; winstonMessage := message; winstonMeta := meta |}]
  /\ Logger_warn env message metadata
     = [{| winstonLevel := lit "warn"; winstonMessage := message; winstonMeta := meta |}]
  /\ Logger_info env message metadata
     = [{| winstonLevel := lit "info"; winstonMessage := message; winstonMeta := meta |}]
  /\ Logger_debug env message metadata = []
  /\ Logger_trace env message metadata = [].
Proof.
  intros Hlevel Hproto meta.
  unfold Logger_error, Logger_warn, Logger_info, Logger_debug, Logger_trace, Logger_log.
  rewrite (memberOf_missing env Hlevel Hproto). repeat split.
Qed.

(** The lower-case spelling of a level is not recognised. *)
Lemma Logger_default_level_X19_witness :
  Logger_info (Some (lit "debug")) (JStr (lit "ready")) None
  = [{| winstonLevel := lit "info"; winstonMessage := JStr (lit "ready"); winstonMeta := [] |}]
  /\ Logger_debug (Some (lit "debug")) (JStr (lit "detail")) None = [].
Proof.
  assert (Hlevel : forall level, Some (lit "debug") <> Some (levelName level))
    by (intros level; destruct level; discriminate).
  assert (Hproto : forall s, Some (lit "debug") = Some s -> ~ In s objectPrototypeNames).
  { intros s [= <-] Hin. unfold objectPrototypeNames in Hin. cbn [In] in Hin.
    repeat (destruct Hin as [Hin | Hin]; [discriminate Hin |]). exact Hin. }
  split.
  - exact (proj1 (proj2 (proj2 (Logger_default_level_X19 (Some (lit "debug"))
                                  (JStr (lit "ready")) None Hlevel Hproto)))).
  - exact (proj1 (proj2 (proj2 (proj2 (Logger_default_level_X19 (Some (lit "debug"))
                                         (JStr (lit "detail")) None Hlevel Hproto))))).
Defined.

(** X20: with [LOGGING_LEVEL] set to [NONE], or to a name every object
    inherits from [Object.prototype] (such as [toString]), none of [error],
    [warn], [info], [debug] and [trace] hands anything to winston. *)
Theorem Logger_silent_X20 env message metadata :
  env = Some (lit "NONE") \/ (exists s, env = Some s /\ In s objectPrototypeNames) ->
  Logger_error env message metadata = []
  /\ Logger_warn env message metadata = []
  /\ Logger_info env message metadata = []
  /\ Logger_debug env message metadata = []
  /\ Logger_trace env message metadata = [].
Proof.
  unfold Logger_error, Logger_warn, Logger_info, Logger_debug, Logger_trace, Logger_log.
  intros [-> | [s [-> Hin]]].
  - repeat split.
  - rewrite (memberOf_inherited s Hin). repeat split.
Qed.

Lemma Logger_silent_X20_witness :
  Logger_error (Some (lit "toString")) (JStr (lit "disk full")) None = [].
Proof.
  refine (proj1 (Logger_silent_X20 (Some (lit "toString")) (JStr (lit "disk full")) None _)).
  right. exists (lit "toString"). split; [reflexivity | simpl; auto 12].
Defined.


(** X22: whatever [LOGGING_LEVEL] holds, a configuration that lets a
    message of some level through lets every message of an earlier level
    through. *)
Theorem Logger_monotone_X22 env level level' message message' metadata metadata' :
  Logger_log env message level metadata <> [] ->
  indexOfLevel (Own level') <= indexOfLevel (Own level) ->
  Logger_log env message' level' metadata' <> [].
Proof.
  unfold Logger_log.
  set (current := indexOfLevel match memberOf env with Missing => Own INFO | found => found end).
  destruct (Z.leb_spec (indexOfLevel (Own level)) current) as [Hle | Hgt];
    [| intros Hne; contradiction Hne; reflexivity].
  intros _ Hearlier.
  destruct (Z.leb_spec (indexOfLevel (Own level')) current); [discriminate | lia].
Qed.

Lemma Logger_monotone_X22_witness :
  Logger_log (Some (lit "WARN")) (JStr (lit "b")) ERROR None <> [].
Proof.
  apply (Logger_monotone_X22 (Some (lit "WARN")) WARN ERROR (JStr (lit "a")) (JStr (lit "b"))
           None None).
  - discriminate.
  - simpl. lia.
Defined.

Lemma lookup_setProp name k v props :
  lookup name (setProp k v props) = if str_eqb k name then v else lookup name props.
Proof.
  induction props as [| [k' w] props IH]; cbn [setProp lookup].
  - reflexivity.
  - destruct (str_eqb k' k) eqn:Ek; cbn [lookup].
    + apply str_eqb_eq in Ek. subst k'. destruct (str_eqb k name); reflexivity.
    + rewrite IH. destruct (str_eqb k' name) eqn:En; [| reflexivity].
      apply str_eqb_eq in En. subst k'.
      rewrite str_eqb_neq; [reflexivity |].
      intros ->. rewrite str_eqb_refl in Ek. discriminate Ek.
Qed.

Lemma hasOwn_In name props : hasOwn name props = true <-> In name (map fst props).
Proof.
  unfold hasOwn. rewrite existsb_exists, in_map_iff. split.
  - intros [kv [Hin Hk]]. apply str_eqb_eq in Hk. eauto.
  - intros [kv [Hk Hin]]. exists kv. split; [exact Hin |].
    apply str_eqb_eq. exact Hk.
Qed.

(** A spread overwrites what the source defines and keeps the rest. *)
Lemma lookup_spread name source :
  NoDup (map fst source) ->
  forall target,
    lookup name (spread target source)
    = if hasOwn name source then lookup name source else lookup name target.
Proof.
  unfold spread. induction source as [| [k v] source IH]; intros Hnd target; [reflexivity |].
  cbn [map fst] in Hnd. inversion Hnd as [| ? ? Hk Hrest]; subst.
  cbn [fold_left fst snd]. rewrite (IH Hrest), lookup_setProp.
  unfold hasOwn at 2. cbn [existsb fst lookup]. fold (hasOwn name source).
  destruct (str_eqb k name) eqn:E; [| reflexivity].
  apply str_eqb_eq in E. subst k. cbn [orb].
  destruct (hasOwn name source) eqn:Hown; [| reflexivity].
  apply hasOwn_In in Hown. contradiction.
Qed.

Lemma lookup_withContext name context metadata :
  NoDup (map fst context) ->
  NoDup (map fst (match metadata with Some m => m | None => [] end)) ->
  lookup name (withContext context metadata)
  = match metadata with
    | Some m => if hasOwn name m then lookup name m else lookup name context
    | None => lookup name context
    end.
Proof.
  intros Hc Hm. unfold withContext. rewrite (lookup_spread name _ Hm).
  rewrite (lookup_spread name context Hc []).
  assert (Hctx : (if hasOwn name context then lookup name context else lookup name [])
                 = lookup name context).
  { destruct (hasOwn name context) eqn:E; [reflexivity |].
    symmetry. apply lookup_not_own. exact E. }
  rewrite Hctx. destruct metadata as [m |]; reflexivity.
Qed.

(** X23: a child logger hands on the message under the metadata of the
    call laid over its context: a key of the call's metadata has the call's
    value, any other key has the value of the context. *)
Theorem Logger_child_metadata_X23 env context message metadata call :
  NoDup (map fst context) ->
  NoDup (map fst (match metadata with Some m => m | None => [] end)) ->
  In call (child_error (Logger_child env context) message metadata
           ++ child_warn (Logger_child env context) message metadata
           ++ child_info (Logger_child env context) message metadata
           ++ child_debug (Logger_child env context) message metadata
           ++ child_trace (Logger_child env context) message metadata) ->
  winstonMessage call = message
  /\ forall name,
      lookup name (winstonMeta call)
      = match metadata with
        | Some m => if hasOwn name m then lookup name m else lookup name context
        | None => lookup name context
        end.
Proof.
  intros Hc Hm Hin.
  assert (Hcall : winstonMessage call = message
                  /\ winstonMeta call = withContext context metadata).
  { cbn [child_error child_warn child_info child_debug child_trace Logger_child] in Hin.
    unfold Logger_error, Logger_warn, Logger_info, Logger_debug, Logger_trace, Logger_log
      in Hin.
    repeat (apply in_app_or in Hin; destruct Hin as [Hin | Hin]).
    all: destruct (_ <=? _); cbn [In] in Hin;
      destruct Hin as [<- | []] || contradiction; split; reflexivity. }
  destruct Hcall as [Hmsg Hmeta]. split; [exact Hmsg |].
  intros name. rewrite Hmeta. apply lookup_withContext; assumption.
Qed.

Lemma Logger_child_metadata_X23_witness :
  Forall (fun call =>
            lookup (lit "url") (winstonMeta call) = JStr (lit "b")
            /\ lookup (lit "jobId") (winstonMeta call) = JStr (lit "j1"))
    (child_error (Logger_child None [(lit "jobId", JStr (lit "j1"));
                                     (lit "url", JStr (lit "a"))])
       (JStr (lit "failed")) (Some [(lit "url", JStr (lit "b"))])).
Proof.
  apply Forall_forall. intros call Hin.
  destruct (Logger_child_metadata_X23 None
              [(lit "jobId", JStr (lit "j1")); (lit "url", JStr (lit "a"))]
              (JStr (lit "failed")) (Some [(lit "url", JStr (lit "b"))]) call)
    as [_ Hmeta].
  - repeat constructor; simpl; intuition discriminate.
  - repeat constructor; simpl; intuition discriminate.
  - apply in_or_app. left. exact Hin.
  - split; [exact (Hmeta (lit "url")) | exact (Hmeta (lit "jobId"))].
Defined.

(** * The batch script *)

Lemma skipn_nth {A} (d : A) : forall i l,
  (i < List.length l)%nat -> skipn i l = nth i l d :: skipn (S i) l.
Proof.
  induction i as [| i IH]; intros [| x l] H; cbn [List.length] in H; try lia.
  - reflexivity.
  - cbn [skipn nth]. rewrite (IH l) by lia. reflexivity.
Qed.

(** The index loop visits the elements from [i] on, one after the other. *)
Lemma fillQueue_fillFrom results : forall remaining i queue processedUrls,
  (i + remaining <= List.length results)%nat ->
  fillQueue remaining i results queue processedUrls
  = fillFrom (firstn remaining (skipn i results)) queue processedUrls.
Proof.
  induction remaining as [| n IH]; intros i queue urls H; [reflexivity |].
  rewrite (skipn_nth JUndefined i results) by lia.
  cbn [fillQueue firstn fillFrom]. unfold cbind.
  destruct (getProp (nth i results JUndefined) (lit "start_url")); [| reflexivity].
  apply IH. lia.
Qed.

Lemma processResults_fillFrom results :
  processResults results = fillFrom (firstn 100 results) [] [].
Proof.
  unfold processResults. rewrite fillQueue_fillFrom by lia.
  cbn [skipn]. rewrite <- firstn_firstn, firstn_all. reflexivity.
Qed.

Lemma sameValueZero_eq a b : sameValueZero a b = true -> a = b.
Proof.
  destruct a, b; simpl; try discriminate; intros H; try reflexivity.
  - apply eqb_prop in H. congruence.
  - apply Z.eqb_eq in H. congruence.
  - apply str_eqb_eq in H. congruence.
Qed.

Lemma setHas_In x members : setHas x members = true -> In x members.
Proof.
  unfold setHas. rewrite existsb_exists. intros [y [Hin Hy]].
  apply sameValueZero_eq in Hy. subst y. exact Hin.
Qed.

Lemma In_setAdd x y members : In x (setAdd y members) <-> In x members \/ x = y.
Proof.
  unfold setAdd. destruct (setHas y members) eqn:E.
  - split; [auto |]. intros [H | ->]; [exact H | apply setHas_In; exact E].
  - rewrite in_app_iff. cbn [In]. intuition congruence.
Qed.

Lemma length_setAdd y members :
  (List.length (setAdd y members) <= S (List.length members))%nat.
Proof.
  unfold setAdd. destruct (setHas y members); [lia |].
  rewrite length_app. cbn [List.length]. lia.
Qed.

Lemma NoDup_setAdd u members :
  NoDup members -> NoDup (setAdd (JStr u) members).
Proof.
  intros Hnd. unfold setAdd. destruct (setHas (JStr u) members) eqn:E; [exact Hnd |].
  apply NoDup_app; [exact Hnd | repeat constructor; simpl; tauto |].
  intros x Hin [<- | []].
  assert (Hhas : setHas (JStr u) members = true).
  { unfold setHas. apply existsb_exists. exists (JStr u). split; [exact Hin |].
    simpl. apply str_eqb_refl. }
  congruence.
Qed.

(** What the loop returns when no visited element is [null] or
    [undefined]. *)
Lemma fillFrom_Normal : forall visited queue processedUrls,
  (forall r, In r visited -> isNullish r = false) ->
  exists urls,
    fillFrom visited queue processedUrls = Normal (queue ++ visited, urls)
    /\ (List.length urls <= List.length processedUrls + List.length visited)%nat
    /\ (forall u, In u urls <->
                  In u processedUrls
                  \/ exists r, In r visited /\ getProp r (lit "start_url") = Normal u).
Proof.
  induction visited as [| r rest IH]; intros queue urls Hok.
  - exists urls. rewrite app_nil_r. cbn [List.length]. split; [reflexivity |].
    split; [lia |]. intros u. split; [auto |]. intros [H | [r [[] _]]]. exact H.
  - cbn [fillFrom]. unfold cbind.
    destruct (getProp r (lit "start_url")) as [v | e] eqn:Hv.
    + destruct (IH (queue ++ [r]) (setAdd v urls)
                  (fun x Hx => Hok x (or_intror Hx))) as (urls' & Hrun & Hlen & Hmem).
      exists urls'. rewrite Hrun, <- app_assoc. split; [reflexivity |].
      split.
      * pose proof (length_setAdd v urls). cbn [List.length]. lia.
      * intros u. rewrite Hmem, In_setAdd. split.
        -- intros [[H | ->] | [x [Hx Hu]]].
           ++ left. exact H.
           ++ right. exists r. split; [left; reflexivity | exact Hv].
           ++ right. exists x. split; [right; exact Hx | exact Hu].
        -- intros [H | [x [[<- | Hx] Hu]]].
           ++ left. left. exact H.
           ++ left. right. congruence.
           ++ right. exists x. split; assumption.
    + exfalso. specialize (Hok r (or_introl eq_refl)).
      destruct r; simpl in Hv; discriminate.
Qed.

(** X24: when none of the first hundred results is [null] or
    [undefined], [processResults] ends with the first hundred results (all
    of them when there are fewer) in its queue, in their order, and with at
    most as many URLs in its set. *)
Theorem processResults_queue_X24 (results : list JSValue) :
  (forall r, In r (firstn 100 results) -> isNullish r = false) ->
  exists processedUrls,
    processResults results = Normal (firstn 100 results, processedUrls)
    /\ List.length (firstn 100 results) = Nat.min 100 (List.length results)
    /\ (List.length processedUrls <= List.length (firstn 100 results))%nat.
Proof.
  intros Hok. rewrite processResults_fillFrom.
  destruct (fillFrom_Normal (firstn 100 results) [] [] Hok) as (urls & Hrun & Hlen & _).
  exists urls. split; [exact Hrun |]. split; [apply length_firstn | exact Hlen].
Qed.

Lemma processResults_queue_X24_witness :
  exists processedUrls,
    processResults threeResults = Normal (threeResults, processedUrls)
    /\ (List.length processedUrls <= 3)%nat.
Proof.
  destruct (processResults_queue_X24 threeResults) as (urls & Hrun & _ & Hlen).
  - intros r [<- | [<- | [<- | []]]]; reflexivity.
  - exists urls. split; [exact Hrun | exact Hlen].
Defined.

Lemma fillFrom_strings : forall visited queue processedUrls,
  (forall r, In r visited -> exists u, getProp r (lit "start_url") = Normal (JStr u)) ->
  NoDup processedUrls ->
  forall q urls, fillFrom visited queue processedUrls = Normal (q, urls) -> NoDup urls.
Proof.
  induction visited as [| r rest IH]; intros queue acc Hstr Hnd q urls.
  - cbn [fillFrom]. intros [= <- <-]. exact Hnd.
  - cbn [fillFrom]. destruct (Hstr r (or_introl eq_refl)) as [u Hu]. rewrite Hu.
    cbn [cbind]. apply IH.
    + intros x Hx. apply Hstr. right. exact Hx.
    + apply NoDup_setAdd. exact Hnd.
Qed.

(** X25: when each of the first hundred results carries a string
    [start_url], the set [processedUrls] ends without a duplicate, and a
    value is in it exactly when it is the [start_url] of a queued result. *)
Theorem processResults_urls_X25 (results : list JSValue) :
  (forall r, In r (firstn 100 results) ->
             exists u, getProp r (lit "start_url") = Normal (JStr u)) ->
  exists processedUrls,
    processResults results = Normal (firstn 100 results, processedUrls)
    /\ NoDup processedUrls
    /\ (forall u, In u processedUrls <->
                  exists r, In r (firstn 100 results)
                            /\ getProp r (lit "start_url") = Normal u).
Proof.
  intros Hstr.
  assert (Hok : forall r, In r (firstn 100 results) -> isNullish r = false).
  { intros r Hr. destruct (Hstr r Hr) as [u Hu]. destruct r; simpl in Hu; try discriminate;
      reflexivity. }
  rewrite processResults_fillFrom.
  destruct (fillFrom_Normal (firstn 100 results) [] [] Hok) as (urls & Hrun & _ & Hmem).
  exists urls. split; [exact Hrun |]. split.
  - apply (fillFrom_strings (firstn 100 results) [] [] Hstr (NoDup_nil _) _ _ Hrun).
  - intros u. rewrite Hmem. cbn [In]. tauto.
Qed.

Lemma processResults_urls_X25_witness :
  processResults threeResults
  = Normal (threeResults, [JStr (lit "https://a.example"); JStr (lit "https://b.example")]).
Proof.
  destruct (processResults_urls_X25 threeResults) as (urls & Hrun & _ & _).
  - intros r [<- | [<- | [<- | []]]]; eexists; reflexivity.
  - rewrite Hrun. vm_compute in Hrun. injection Hrun as <-. reflexivity.
Defined.

Lemma fillFrom_Throw : forall visited queue processedUrls,
  (exists e, fillFrom visited queue processedUrls = Throw e)
  <-> (exists r, In r visited /\ isNullish r = true).
Proof.
  induction visited as [| r rest IH]; intros queue urls.
  - cbn [fillFrom]. split; [intros [e H]; discriminate H | intros [r [[] _]]].
  - cbn [fillFrom]. unfold cbind.
    destruct (getProp r (lit "start_url")) as [v | e] eqn:Hv.
    + rewrite IH. split.
      * intros [x [Hx Hn]]. exists x. split; [right; exact Hx | exact Hn].
      * intros [x [[<- | Hx] Hn]]; [| eauto].
        destruct r; simpl in Hv; discriminate.
    + split; [intros _ | eauto].
      exists r. split; [left; reflexivity |].
      destruct r; simpl in Hv; try discriminate; reflexivity.
Qed.

(** X26: [processResults] never looks past the hundredth result: its
    outcome is that on the first hundred alone. It throws exactly when one
    of those is [null] or [undefined]. *)
Theorem processResults_window_X26 (results : list JSValue) :
  processResults results = processResults (firstn 100 results)
  /\ ((exists e, processResults results = Throw e)
      <-> (exists r, In r (firstn 100 results) /\ isNullish r = true)).
Proof.
  split.
  - rewrite !processResults_fillFrom, firstn_firstn. reflexivity.
  - rewrite processResults_fillFrom. apply fillFrom_Throw.
Qed.

Lemma getStartUrls_parsed env data parsed :
  readFile env (lit "starturls.json") = Normal data ->
  parseJSON env data = Normal parsed ->
  getStartUrls env = (Normal parsed, []).
Proof. unfold getStartUrls, cbind. intros -> ->. reflexivity. Qed.

Lemma getStartUrls_failed env error message :
  readFile env (lit "starturls.json") = Throw error
  \/ (exists data, readFile env (lit "starturls.json") = Normal data
                   /\ parseJSON env data = Throw error) ->
  getProp error (lit "message") = Normal message ->
  getStartUrls env
  = (Normal (JArr []),
     Logger_error (LOGGING_LEVEL env) (JStr (lit "Error reading starturls.json"))
       (Some [(lit "error", message)])).
Proof.
  unfold getStartUrls, cbind. intros [-> | [data [-> ->]]] ->; reflexivity.
Qed.

(** X27: [getStartUrls] hands on whatever the file parses to, unchecked
    and without logging; when reading or parsing fails with an error value,
    it does not fail: it resolves to the empty array and reports one error
    carrying the message of the failure. *)
Theorem getStartUrls_outcome_X27 (env : ScriptEnv) :
  (forall data parsed,
      readFile env (lit "starturls.json") = Normal data ->
      parseJSON env data = Normal parsed ->
      getStartUrls env = (Normal parsed, []))
  /\ (forall error message,
      readFile env (lit "starturls.json") = Throw error
      \/ (exists data, readFile env (lit "starturls.json") = Normal data
                       /\ parseJSON env data = Throw error) ->
      getProp error (lit "message") = Normal message ->
      getStartUrls env
      = (Normal (JArr []),
         Logger_error (LOGGING_LEVEL env) (JStr (lit "Error reading starturls.json"))
           (Some [(lit "error", message)]))).
Proof.
  split; [apply getStartUrls_parsed | apply getStartUrls_failed].
Qed.

Lemma getStartUrls_outcome_X27_witness :
  getStartUrls missingFile
  = (Normal (JArr []),
     [{| winstonLevel := lit "error";
         winstonMessage := JStr (lit "Error reading starturls.json");
         winstonMeta := [(lit "error", JStr (lit "ENOENT: no such file or directory"))] |}]).
Proof.
  apply (proj2 (getStartUrls_outcome_X27 missingFile)
           (ErrorObject (lit "ENOENT: no such file or directory"))
           (JStr (lit "ENOENT: no such file or directory"))).
  - left. reflexivity.
  - reflexivity.
Defined.





(** A start file of fewer than 4000 entries: nothing is examined. *)
Example main_short_file :
  main smallFile
  = (Normal tt,
     [{| winstonLevel := lit "info";
         winstonMessage := JStr (lit "All results processed.");
         winstonMeta := [] |}]).
Proof. vm_compute. reflexivity. Qed.

(** The long start files fill the window that [main] examines. *)
Example long_files_window :
  length (firstn 100 (skipn (Z.to_nat 3999) longResults)) = Z.to_nat 100
  /\ length (firstn 100 (skipn (Z.to_nat 3999) holedResults)) = Z.to_nat 100
  /\ nth_error holedResults (Z.to_nat 4000) = Some JNull.
Proof. repeat split; vm_compute; reflexivity. Qed.


(** X29: a start file that cannot be read or parsed is not fatal: [main]
    returns after reporting the error and then, the queue being empty, that
    all results are processed. *)
Theorem main_unreadable_X29 (env : ScriptEnv) error message :
  readFile env (lit "starturls.json") = Throw error
  \/ (exists data, readFile env (lit "starturls.json") = Normal data
                   /\ parseJSON env data = Throw error) ->
  getProp error (lit "message") = Normal message ->
  main env
  = (Normal tt,
     Logger_error (LOGGING_LEVEL env) (JStr (lit "Error reading starturls.json"))
       (Some [(lit "error", message)])
     ++ Logger_info (LOGGING_LEVEL env) (JStr (lit "All results processed.")) None).
Proof.
  intros Hfail Hm. unfold main. rewrite (getStartUrls_failed env error message Hfail Hm).
  reflexivity.
Qed.

Lemma main_unreadable_X29_witness :
  main missingFile
  = (Normal tt,
     [{| winstonLevel := lit "error";
         winstonMessage := JStr (lit "Error reading starturls.json");
         winstonMeta := [(lit "error", JStr (lit "ENOENT: no such file or directory"))] |};
      {| winstonLevel := lit "info";
         winstonMessage := JStr (lit "All results processed.");
         winstonMeta := [] |}]).
Proof.
  apply (main_unreadable_X29 missingFile
           (ErrorObject (lit "ENOENT: no such file or directory"))
           (JStr (lit "ENOENT: no such file or directory"))).
  - left. reflexivity.
  - reflexivity.
Defined.

(** X30: a start file that parses to something other than an array or a
    string (an object, a number, a boolean, [null]) makes [main] throw a
    [TypeError] at [slice], before anything is processed or logged. *)
Theorem main_not_an_array_X30 (env : ScriptEnv) data parsed :
  readFile env (lit "starturls.json") = Normal data ->
  parseJSON env data = Normal parsed ->
  (forall elems, parsed <> JArr elems) ->
  (forall s, parsed <> JStr s) ->
  exists message, main env = (Throw (TypeError message), []).
Proof.
  intros Hread Hparse Harr Hstr. unfold main.
  rewrite (getStartUrls_parsed env data parsed Hread Hparse). cbn [cbind].
  destruct parsed; cbn [slice_3999_6000 getProp cbind]; eauto.
  - exfalso. apply (Hstr s). reflexivity.
  - exfalso. apply (Harr elems). reflexivity.
Qed.

Lemma main_not_an_array_X30_witness :
  exists message, main objectFile = (Throw (TypeError message), []).
Proof.
  apply (main_not_an_array_X30 objectFile (json "{'start_url':'https://a.example'}")
           (startUrl "https://a.example")).
  - reflexivity.
  - reflexivity.
  - discriminate.
  - discriminate.
Defined.
